(** * Asana Task Exporter: a shallow embedding of its business rules

    The development follows the layout of the Python sources:
    [config_schema.py], [models.py], [task_manager.py], [asana_client.py],
    [excel_exporter.py], [config_manager.py] and [config_initializer.py]
    each get a module with the functions translated from the source; the
    theorems about them come after all the definitions.

    Conventions of the embedding.
    - Python [str] values are Rocq strings (byte strings standing for the
      UTF-8 text), [int] is [Z], [float] is the binary64 type [float] of the
      kernel, a [dict] is a [gmap], a [list] is a [list].
    - An exception is a value of [exn]: its class and the payload that the
      control flow can depend on.  The text of messages is not modelled.
    - Code that raises returns a [result]; code that also reads or changes
      the world (files, the network, the clock, callbacks) is a function
      from the state to a [result] and the state after it.  A raised
      exception keeps the state reached when it was raised.
    - Logging calls have no effect on any value and are left out. *)

From Stdlib Require Import ZArith Lia List String Ascii.
From Stdlib Require Import Floats.PrimFloat Floats.SpecFloat Floats.FloatOps.
From stdpp Require Import gmap strings list fin_maps.

Local Open Scope Z_scope.

(** ** Python values the sources compute with *)

Module Py.

(** Why a [DateValidationError] was raised: one constructor per [raise]
    of [TaskManager.validate_date_range]. *)
Inductive date_error :=
| StartNotADate | EndNotADate | StartAfterEnd | StartInFuture
| EndInFuture | RangeTooLong | StartTooOld | UnexpectedFailure.

(** Exception classes raised or caught by the modelled code. *)
Inductive exn :=
| ValueError | JSONDecodeError | TypeError | AttributeError | KeyError
| OverflowError | OSError | RuntimeError
| ValidationError (field : string)
| DateValidationError (why : date_error)
| TaskManagerError
| APIError (status_code : option Z) | NetworkError | AuthenticationError
| AsanaAPIError | AsanaAuthenticationError | AsanaRateLimitError
| Timeout | ConnectionError | RequestException
| InvalidToken | UnicodeDecodeError.

(** [isinstance(e, C)] for the classes that appear in an [except] clause. *)
Definition is_JSONDecodeError (e : exn) : bool :=
  match e with JSONDecodeError => true | _ => false end.
Definition is_DateValidationError (e : exn) : bool :=
  match e with DateValidationError _ => true | _ => false end.

Inductive result (A : Type) :=
| Ok (a : A)
| Raise (e : exn).
Arguments Ok {A} a.
Arguments Raise {A} e.

#[global] Instance result_ret : MRet result := fun _ a => Ok a.
#[global] Instance result_bind : MBind result := fun _ _ f m =>
  match m with Ok a => f a | Raise e => Raise e end.

(** [try: body except Exception as e: handler(e)] on pure code. *)
Definition try_except {A} (body : result A) (handler : exn -> result A) : result A :=
  match body with Ok a => Ok a | Raise e => handler e end.

(** Stateful code: [M S A] threads a state of type [S]. *)
Definition M (S A : Type) : Type := S -> result A * S.

#[global] Instance M_ret {S} : MRet (M S) := fun _ a s => (Ok a, s).
#[global] Instance M_bind {S} : MBind (M S) := fun _ _ f m s =>
  match m s with
  | (Ok a, s') => f a s'
  | (Raise e, s') => (Raise e, s')
  end.

Definition raise {S A} (e : exn) : M S A := fun s => (Raise e, s).
Definition get {S} : M S S := fun s => (Ok s, s).
Definition modify {S} (f : S -> S) : M S unit := fun s => (Ok tt, f s).
Definition lift {S A} (r : result A) : M S A := fun s => (r, s).

(** [try: body except Exception as e: handler(e)]; a handler that does
    not match [e] re-raises it. *)
Definition try_catch {S A} (body : M S A) (handler : exn -> M S A) : M S A :=
  fun s => match body s with
           | (Ok a, s') => (Ok a, s')
           | (Raise e, s') => handler e s'
           end.

(** Numbers passed where Python accepts an [int] or a [float]. *)
Inductive num :=
| Int (z : Z)
| Float (f : float).

(** [float(n)] for an [int] [n], also where an [int] operand of a float
    operation is converted: the nearest binary64 value, and
    [OverflowError] when the [int] is too large for one. *)
Definition float_of_Z (z : Z) : result float :=
  let x := SF2Prim (binary_normalize 53 1024 z 0 false) in
  if PrimFloat.is_infinity x then Raise OverflowError else Ok x.

(** [int(x)] for a [float] [x]: truncation toward zero; [int] raises
    [OverflowError] on an infinity and [ValueError] on a NaN. *)
Definition int_of_float (x : float) : result Z :=
  match Prim2SF x with
  | S754_zero _ => Ok 0
  | S754_finite s m e =>
      let mag := match e with
                 | Z0 => Zpos m
                 | Zpos p => Z.shiftl (Zpos m) (Zpos p)
                 | Zneg p => Z.shiftr (Zpos m) (Zpos p)
                 end in
      Ok (if s then - mag else mag)
  | S754_infinity _ => Raise OverflowError
  | S754_nan => Raise ValueError
  end.

(** [x in l] for a list of strings. *)
Definition contains (x : string) (l : list string) : bool := bool_decide (x ∈ l).

(** *** JSON-shaped values

    The values of a configuration: what [json.load] returns and what
    [json.dump] accepts, with string keys.  Floating-point numbers do not
    occur in a configuration and are left out. *)
Inductive json :=
| JNull
| JBool (b : bool)
| JInt (z : Z)
| JStr (s : string)
| JList (l : list json)
| JDict (m : gmap string json).

(** [bool(v)] *)
Definition json_truthy (v : json) : bool :=
  match v with
  | JNull => false
  | JBool b => b
  | JInt z => negb (z =? 0)
  | JStr s => negb (String.eqb s "")
  | JList l => match l with [] => false | _ => true end
  | JDict m => negb (size m =? 0)%nat
  end.

(** [isinstance(v, str)], [isinstance(v, int)] ([bool] is a subclass of
    [int]) and [isinstance(v, list)] *)
Definition json_is_str (v : json) : bool :=
  match v with JStr _ => true | _ => false end.
Definition json_is_int (v : json) : bool :=
  match v with JInt _ | JBool _ => true | _ => false end.
Definition json_is_list (v : json) : bool :=
  match v with JList _ => true | _ => false end.

(** The integer an [int] or [bool] compares as. *)
Definition json_int_value (v : json) : Z :=
  match v with JInt z => z | JBool true => 1 | _ => 0 end.

(** [pattern in text] for two strings *)
Fixpoint occurs (pattern text : string) : bool :=
  String.prefix pattern text
  || match text with
     | String _ rest => occurs pattern rest
     | EmptyString => false
     end.

(** [key in container] for a string [key]: a key of a dict, an element of
    a list, a substring of a string; [TypeError] for the other types. *)
Definition json_contains (container : json) (key : string) : result bool :=
  match container with
  | JDict m => Ok (bool_decide (is_Some (m !! key)))
  | JList l =>
      Ok (existsb (fun v => match v with JStr s => String.eqb s key | _ => false end) l)
  | JStr s => Ok (occurs key s)
  | _ => Raise TypeError
  end.

(** [container[key]] for a string [key] *)
Definition json_subscript (container : json) (key : string) : result json :=
  match container with
  | JDict m => match m !! key with Some v => Ok v | None => Raise KeyError end
  | _ => Raise TypeError
  end.

(** [mapping.get(key, default)]: only a dict has [get]. *)
Definition json_get (mapping : json) (key : string) (default_value : json)
  : result json :=
  match mapping with
  | JDict m => Ok (default default_value (m !! key))
  | _ => Raise AttributeError
  end.

(** [text.split(sep)] for a separator of one character *)
Fixpoint split_on (sep : ascii) (text : string) : list string :=
  match text with
  | EmptyString => [EmptyString]
  | String c rest =>
      if Ascii.eqb c sep then EmptyString :: split_on sep rest
      else match split_on sep rest with
           | first :: others => String c first :: others
           | [] => [String c EmptyString]
           end
  end.

(** Whether [int(text)] accepts [text], for ASCII text: white space
    around, an optional sign, then digits, with single underscores allowed
    between digits.  For other text (the decimal digits and the white
    space of Unicode) and for long text (the limit on the number of
    digits) the answer is the interpreter's: see [short_ascii]. *)
Definition is_space (c : ascii) : bool :=
  let n := nat_of_ascii c in
  ((9 <=? n) && (n <=? 13) || (28 <=? n) && (n <=? 32))%nat.

Definition is_digit (c : ascii) : bool :=
  let n := nat_of_ascii c in ((48 <=? n) && (n <=? 57))%nat.

Fixpoint lstrip (text : string) : string :=
  match text with
  | String c rest => if is_space c then lstrip rest else text
  | EmptyString => EmptyString
  end.

Definition strip (text : string) : string :=
  String.rev (lstrip (String.rev (lstrip text))).

Fixpoint digits_ok (after_digit : bool) (text : string) : bool :=
  match text with
  | EmptyString => after_digit
  | String c rest =>
      if is_digit c then digits_ok true rest
      else if Ascii.eqb c "_" then after_digit && digits_ok false rest
      else false
  end.

Definition int_accepts (text : string) : bool :=
  match strip text with
  | String c rest =>
      if Ascii.eqb c "+" || Ascii.eqb c "-" then digits_ok false rest
      else digits_ok false (String c rest)
  | EmptyString => false
  end.

(** Text on which the rule of [int_accepts] is all there is to [int]:
    ASCII, and too short for a limit on the number of digits (the limit
    cannot be set below 640). *)
Fixpoint is_ascii (text : string) : bool :=
  match text with
  | EmptyString => true
  | String c rest => (nat_of_ascii c <? 128)%nat && is_ascii rest
  end.

Definition short_ascii (text : string) : bool :=
  (String.length text <=? 640)%nat && is_ascii text.

(** [str(Path(directory) / name)], in the POSIX rendering: the parts are
    joined by a slash, and the root directory brings its own. *)
Definition joinpath (directory name : string) : string :=
  if String.eqb directory "/" then "/" +:+ name
  else directory +:+ "/" +:+ name.

End Py.
Import Py.

(** ** [error_handler.py]: the retry policy

    The statistics and the log of the global [ErrorHandler] are written
    and never read by the code below; they are left out. *)

Module ErrorHandler.

(** [isinstance(e, AsanaAPIError)]: the class of [asana_client.py] and
    its two subclasses. *)
Definition is_AsanaAPIError (e : exn) : bool :=
  match e with
  | AsanaAPIError | AsanaAuthenticationError | AsanaRateLimitError => true
  | _ => false
  end.

(** The truth value of [ErrorHandler.should_retry(error)].  For an
    [APIError] the method returns [status_code in [429] or (status_code
    and 500 <= status_code < 600)], which is [None] or [0] when there is
    no status code. *)
Definition should_retry (error : exn) : bool :=
  match error with
  | NetworkError => true
  | APIError status_code =>
      match status_code with
      | Some code =>
          (code =? 429) || (negb (code =? 0) && ((500 <=? code) && (code <? 600)))
      | None => false
      end
  | _ => false
  end.

(** An entry of [retry_settings]. *)
Record retry_setting := {
  max_retries : Z;
  delay : float;
  backoff : float
}.

(** [ErrorHandler.get_retry_settings(error)]; [None] stands for the empty
    dict returned for an application error of a type without settings. *)
Definition get_retry_settings (error : exn) : option retry_setting :=
  match error with
  | NetworkError => Some {| max_retries := 3; delay := 2; backoff := 2 |}
  | APIError _ => Some {| max_retries := 2; delay := 1; backoff := 1.5 |}
  | AuthenticationError | ValidationError _ | DateValidationError _ => None
  | _ => Some {| max_retries := 1; delay := 1; backoff := 1 |}
  end.

Section WithSleep.
Context {S A : Type}.
(** [time.sleep(seconds)] in the world the decorated function runs in. *)
Variable time_sleep : float -> M S unit.

(** Whether the decorator retries after [e]: an instance of one of the
    classes of [retry_on]; without classes ([None] or an empty list),
    what [should_retry] says. *)
Definition retryable (retry_on : option (list (exn -> bool))) (e : exn) : bool :=
  match retry_on with
  | Some ((_ :: _) as classes) => existsb (fun is_instance => is_instance e) classes
  | _ => should_retry e
  end.

(** [for attempt in range(max_retries + 1)] from [attempt] on, with
    [remaining] iterations left, then the [raise last_error] after the
    loop ([raise None] is a [TypeError]).  An exception of [time.sleep]
    leaves the wrapper. *)
Fixpoint retry_loop (remaining : nat) (attempt max_retries : Z)
    (current_delay backoff : float) (retry_on : option (list (exn -> bool)))
    (func : M S A) (last_error : option exn) : M S A :=
  match remaining with
  | O =>
      match last_error with
      | Some e => raise e
      | None => raise TypeError
      end
  | Datatypes.S remaining' =>
      try_catch func
        (fun e =>
           if (attempt <? max_retries) && retryable retry_on e then
             time_sleep current_delay;;
             retry_loop remaining' (attempt + 1) max_retries
               (current_delay * backoff)%float backoff retry_on func (Some e)
           else raise e)
  end.

(** The wrapper made by [retry_on_error(max_retries, delay, backoff,
    retry_on)] around [func]. *)
Definition retry_on_error (max_retries : Z) (delay backoff : float)
    (retry_on : option (list (exn -> bool))) (func : M S A) : M S A :=
  retry_loop (Z.to_nat (max_retries + 1)) 0 max_retries delay backoff retry_on
    func None.

End WithSleep.

(** A world to run a decorated function in: the number of calls made to
    the function and the sleeps so far. *)
Record trace := { calls : nat; slept : list float }.

(** A function whose n-th call answers [answers n]. *)
Definition call {A} (answers : nat -> result A) : M trace A :=
  fun t => (answers (calls t), {| calls := Datatypes.S (calls t); slept := slept t |}).

(** [time.sleep] in that world; [float_sleep_error] is the exception it
    raises for a length it rejects. *)
Definition sleep (float_sleep_error : float -> option exn) (seconds : float)
  : M trace unit :=
  match float_sleep_error seconds with
  | Some e => raise e
  | None => modify (fun t => {| calls := calls t; slept := slept t ++ [seconds] |})
  end.

(** Whether the decorator goes on after [answer]: a failure it retries. *)
Definition is_retried {A} (retry_on : option (list (exn -> bool)))
    (answer : result A) : bool :=
  match answer with
  | Raise e => retryable retry_on e
  | Ok _ => false
  end.

(** The first [n] waiting times: [delay], [delay * backoff], ... *)
Fixpoint delays (n : nat) (delay backoff : float) : list float :=
  match n with
  | O => []
  | Datatypes.S n' => delay :: delays n' (delay * backoff)%float backoff
  end.

End ErrorHandler.

(** ** [config_schema.py]: the field catalog *)

Module ConfigSchema.

Definition AVAILABLE_TASK_FIELDS : gmap string string :=
  list_to_map
    [ ("name", "タスク名"); ("created_at", "作成日時"); ("modified_at", "更新日時");
      ("completed", "完了状態"); ("assignee", "担当者"); ("due_date", "期限");
      ("notes", "メモ"); ("tags", "タグ"); ("projects", "プロジェクト");
      ("parent", "親タスク"); ("subtasks", "サブタスク数");
      ("dependencies", "依存関係"); ("custom_fields", "カスタムフィールド") ].

Definition REQUIRED_FIELDS : list string := ["name"; "created_at"].

Definition DEFAULT_SELECTED_FIELDS : list string :=
  ["name"; "created_at"; "assignee"; "completed"; "due_date"].

(** [field in AVAILABLE_TASK_FIELDS] *)
Definition in_catalog (field : string) : bool :=
  bool_decide (is_Some (AVAILABLE_TASK_FIELDS !! field)).

Definition get_field_display_name (field_name : string) : string :=
  default field_name (AVAILABLE_TASK_FIELDS !! field_name).

Definition is_required_field (field_name : string) : bool :=
  contains field_name REQUIRED_FIELDS.

(** The loop [for required_field in REQUIRED_FIELDS: if required_field not
    in validated_fields: validated_fields.insert(0, required_field)]. *)
Definition add_required (validated_fields : list string) : list string :=
  fold_left
    (fun acc required_field =>
       if contains required_field acc then acc else required_field :: acc)
    REQUIRED_FIELDS validated_fields.

Definition validate_selected_fields (selected_fields : list string) : list string :=
  match selected_fields with
  | [] => DEFAULT_SELECTED_FIELDS
  | _ =>
      let validated_fields := add_required selected_fields in
      List.filter in_catalog validated_fields
  end.

(** *** The same function on list objects

    Python lists are mutable objects.  A [store] maps the identity of a
    list object to its contents; [copy] allocates, [insert0] mutates in
    place.  [validate_selected_fields_obj] takes the identity of the
    module-level [DEFAULT_SELECTED_FIELDS] object and of the argument. *)

Abbreviation obj := positive.
Abbreviation store := (gmap positive (list string)).

Definition new_list (v : list string) (h : store) : obj * store :=
  let l := fresh (dom h) in (l, <[l := v]> h).

(** [list(x)] and [x.copy()] *)
Definition copy (x : obj) (h : store) : option (obj * store) :=
  v ← h !! x; Some (new_list v h).

(** [x.insert(0, field)] *)
Definition insert0 (x : obj) (field : string) (h : store) : option store :=
  v ← h !! x; Some (<[x := field :: v]> h).

Fixpoint add_required_obj (required : list string) (x : obj) (h : store)
  : option store :=
  match required with
  | [] => Some h
  | required_field :: rest =>
      v ← h !! x;
      h' ← (if contains required_field v then Some h else insert0 x required_field h);
      add_required_obj rest x h'
  end.

Definition validate_selected_fields_obj
    (DEFAULT_SELECTED_FIELDS_obj selected_fields : obj) (h : store)
  : option (obj * store) :=
  v ← h !! selected_fields;
  match v with
  | [] => copy DEFAULT_SELECTED_FIELDS_obj h
  | _ =>
      '(validated_fields, h1) ← copy selected_fields h;
      h2 ← add_required_obj REQUIRED_FIELDS validated_fields h1;
      w ← h2 !! validated_fields;
      Some (new_list (List.filter in_catalog w) h2)
  end.

(** The required fields absent from a selection, in the order in which
    the successive [insert(0, _)] calls leave them. *)
Definition missing_required (selected_fields : list string) : list string :=
  List.filter (fun r => negb (contains r selected_fields)) ["created_at"; "name"].

(** *** The configuration records

    A dataclass checks no type: the attributes hold whatever they are
    given.  [home] is [str(Path.home())]. *)

Record AsanaConfig := {
  access_token : json;
  selected_project_id : json;
  selected_project_name : json
}.

Record ExportConfig := {
  default_date_range : json;
  selected_fields : json;
  output_directory : json
}.

Record UIConfig := {
  window_size : json;
  last_export_path : json
}.

Record AppConfig := {
  asana : AsanaConfig;
  export : ExportConfig;
  ui : UIConfig
}.

(** [str(Path.home() / "Documents")] *)
Definition documents (home : string) : string := joinpath home "Documents".

(** [AsanaConfig] called with the keyword arguments [data] *)
Definition AsanaConfig_init (data : gmap string json) : AsanaConfig :=
  {| access_token := default (JStr "") (data !! "access_token");
     selected_project_id := default (JStr "") (data !! "selected_project_id");
     selected_project_name := default (JStr "") (data !! "selected_project_name") |}.

(** [ExportConfig] called with the keyword arguments [data], with its
    [__post_init__] *)
Definition ExportConfig_init (home : string) (data : gmap string json) : ExportConfig :=
  let fields := default JNull (data !! "selected_fields") in
  let directory := default (JStr "") (data !! "output_directory") in
  {| default_date_range := default (JInt 30) (data !! "default_date_range");
     selected_fields :=
       match fields with
       | JNull => JList (map JStr ["name"; "created_at"; "assignee"; "completed"; "due_date"])
       | _ => fields
       end;
     output_directory :=
       if json_truthy directory then directory else JStr (documents home) |}.

(** [UIConfig] called with the keyword arguments [data] *)
Definition UIConfig_init (data : gmap string json) : UIConfig :=
  {| window_size := default (JStr "800x600") (data !! "window_size");
     last_export_path := default (JStr "") (data !! "last_export_path") |}.

(** [AppConfig()] *)
Definition AppConfig_init (home : string) : AppConfig :=
  {| asana := AsanaConfig_init ∅;
     export := ExportConfig_init home ∅;
     ui := UIConfig_init ∅ |}.

(** [asdict(self)] *)
Definition to_dict (config : AppConfig) : json :=
  JDict
    {[ "asana" :=
         JDict {[ "access_token" := access_token (asana config);
                  "selected_project_id" := selected_project_id (asana config);
                  "selected_project_name" := selected_project_name (asana config) ]};
       "export" :=
         JDict {[ "default_date_range" := default_date_range (export config);
                  "selected_fields" := selected_fields (export config);
                  "output_directory" := output_directory (export config) ]};
       "ui" :=
         JDict {[ "window_size" := window_size (ui config);
                  "last_export_path" := last_export_path (ui config) ]} ]}.

(** Passing [data] as the keyword arguments of a constructor with the parameters
    [allowed]: [TypeError] for what is no mapping and for a key that is no
    parameter. *)
Definition keyword_arguments (allowed : list string) (data : json)
  : result (gmap string json) :=
  match data with
  | JDict m =>
      if forallb (fun kv => contains kv.1 allowed) (map_to_list m)
      then Ok m else Raise TypeError
  | _ => Raise TypeError
  end.

Definition from_dict (home : string) (data : json) : result AppConfig :=
  asana_data ← json_get data "asana" (JDict ∅);
  export_data ← json_get data "export" (JDict ∅);
  ui_data ← json_get data "ui" (JDict ∅);
  asana_kw ← keyword_arguments
    ["access_token"; "selected_project_id"; "selected_project_name"] asana_data;
  export_kw ← keyword_arguments
    ["default_date_range"; "selected_fields"; "output_directory"] export_data;
  ui_kw ← keyword_arguments ["window_size"; "last_export_path"] ui_data;
  Ok {| asana := AsanaConfig_init asana_kw;
        export := ExportConfig_init home export_kw;
        ui := UIConfig_init ui_kw |}.

End ConfigSchema.

(** ** [models.py]: tasks and the data-layer field catalog *)

Module Models.

(** Values held by the attributes of a [Task] and by the rows made from
    it.  A [date] is its proleptic Gregorian ordinal ([date.toordinal()]);
    a [datetime] adds the microseconds since midnight and, when it is
    timezone-aware, its UTC offset in microseconds. *)
Inductive value :=
| VNone
| VBool (b : bool)
| VInt (z : Z)
| VFloat (f : float)
| VStr (s : string)
| VDate (ordinal : Z)
| VDateTime (ordinal : Z) (micros : Z) (utcoffset : option Z)
| VDict (items : gmap string value).

(** [bool(v)] *)
Definition truthy (v : value) : bool :=
  match v with
  | VNone => false
  | VBool b => b
  | VInt z => negb (z =? 0)
  | VFloat f => negb (PrimFloat.eqb f 0%float)
  | VStr s => negb (String.eqb s "")
  | VDate _ | VDateTime _ _ _ => true
  | VDict items => negb (size items =? 0)%nat
  end.

Definition is_str (v : value) : bool := match v with VStr _ => true | _ => false end.
Definition is_bool (v : value) : bool := match v with VBool _ => true | _ => false end.
Definition is_None (v : value) : bool := match v with VNone => true | _ => false end.
Definition is_dict (v : value) : bool := match v with VDict _ => true | _ => false end.
(** [isinstance(v, datetime)] *)
Definition is_datetime (v : value) : bool :=
  match v with VDateTime _ _ _ => true | _ => false end.
(** [isinstance(v, date)]: [datetime] is a subclass of [date]. *)
Definition is_date (v : value) : bool :=
  match v with VDate _ | VDateTime _ _ _ => true | _ => false end.

(** The ordinals of [date.min] and [date.max]. *)
Definition date_min : Z := 1.
Definition date_max : Z := 3652059.

(** [a > b] between [date] and [datetime] objects.  A [date] and a
    [datetime] do not compare, nor do a naive and an aware [datetime]:
    [TypeError]. *)
Definition instant (ordinal micros offset : Z) : Z :=
  ordinal * 86400000000 + micros - offset.

Definition gt (a b : value) : result bool :=
  match a, b with
  | VDate x, VDate y => Ok (y <? x)
  | VDateTime d1 t1 None, VDateTime d2 t2 None =>
      Ok (instant d2 t2 0 <? instant d1 t1 0)
  | VDateTime d1 t1 (Some o1), VDateTime d2 t2 (Some o2) =>
      Ok (instant d2 t2 o2 <? instant d1 t1 o1)
  | _, _ => Raise TypeError
  end.

(** [a < b] *)
Definition lt (a b : value) : result bool := gt b a.

Record Task := {
  id : value;
  name : value;
  created_at : value;
  modified_at : value;
  completed : value;
  assignee : value;
  due_date : value;
  notes : value;
  custom_fields : value
}.

Section WithLibrary.
(** [re.match(r'^\d+$', s)] succeeds. *)
Variable re_match_digits : string -> bool.
(** [d.isoformat()] of a [date] or [datetime]. *)
Variable isoformat : value -> string.

Definition validate (t : Task) : result unit :=
  if negb (truthy (id t)) || negb (is_str (id t)) then Raise ValueError else
  if negb (truthy (name t)) || negb (is_str (name t)) then Raise ValueError else
  if negb (match id t with VStr s => re_match_digits s | _ => false end)
  then Raise ValueError else
  if negb (is_datetime (created_at t)) then Raise ValueError else
  if negb (is_datetime (modified_at t)) then Raise ValueError else
  later ← gt (created_at t) (modified_at t);
  if later : bool then Raise ValueError else
  if negb (is_bool (completed t)) then Raise ValueError else
  if negb (is_None (assignee t)) && negb (is_str (assignee t)) then Raise ValueError else
  if negb (is_None (due_date t)) && negb (is_date (due_date t)) then Raise ValueError else
  if negb (is_str (notes t)) then Raise ValueError else
  if negb (is_dict (custom_fields t)) then Raise ValueError else
  Ok tt.

(** [x.isoformat() if x else None]: an object that is true and is no
    [date] has no [isoformat] attribute. *)
Definition isoformat_if (x : value) : result value :=
  if truthy x then
    if is_date x then Ok (VStr (isoformat x)) else Raise AttributeError
  else Ok VNone.

(** [base_data] of [Task.to_dict]: the eight intrinsic entries, then
    every custom field assigned over them. *)
Definition base_data (t : Task) : result (gmap string value) :=
  created ← isoformat_if (created_at t);
  modified ← isoformat_if (modified_at t);
  due ← isoformat_if (due_date t);
  let base : gmap string value :=
    <["notes" := notes t]> (<["due_date" := due]> (<["assignee" := assignee t]>
    (<["completed" := completed t]> (<["modified_at" := modified]>
    (<["created_at" := created]> (<["name" := name t]> {["id" := id t]})))))) in
  match custom_fields t with
  | VDict items => Ok (items ∪ base)
  | _ => Raise AttributeError
  end.

(** [{key: base_data.get(key) for key in selected_fields if key in base_data}] *)
Definition restrict (base : gmap string value) (selected_fields : list string)
  : gmap string value :=
  list_to_map (omap (fun key => (fun v => (key, v)) <$> base !! key) selected_fields).

Definition to_dict (t : Task) (selected_fields : option (list string))
  : result (gmap string value) :=
  base ← base_data t;
  match selected_fields with
  | Some ((_ :: _) as fields) => Ok (restrict base fields)
  | _ => Ok base
  end.

End WithLibrary.

Record TaskField := {
  field_name : string;
  display_name : string;
  field_type : string;
  required : bool
}.

Definition DEFAULT_TASK_FIELDS : list TaskField :=
  [ Build_TaskField "id" "タスクID" "string" true;
    Build_TaskField "name" "タスク名" "string" true;
    Build_TaskField "created_at" "作成日時" "datetime" true;
    Build_TaskField "modified_at" "更新日時" "datetime" false;
    Build_TaskField "completed" "完了状態" "boolean" false;
    Build_TaskField "assignee" "担当者" "string" false;
    Build_TaskField "due_date" "期限" "date" false;
    Build_TaskField "notes" "メモ" "text" false ].

End Models.

(** ** [task_manager.py] *)

Module TaskManager.
Import Models.

Definition DEFAULT_DATE_RANGE_DAYS : Z := 30.
Definition MAX_DATE_RANGE_DAYS : Z := 365.

(** [(end_date - start_date).days].  When the subtraction is reached both
    arguments have been compared with [date.today()], which raises for
    anything but a plain [date]. *)
Definition days_between (end_date start_date : value) : result Z :=
  match end_date, start_date with
  | VDate e, VDate s => Ok (e - s)
  | _, _ => Raise TypeError
  end.

(** [d - timedelta(days=n)]: [OverflowError] below [date.min]. *)
Definition minus_days (d n : Z) : result value :=
  if (d - n <? date_min) || (date_max <? d - n) then Raise OverflowError
  else Ok (VDate (d - n)).

(** [today] is the ordinal of [date.today()]. *)
Definition validate_date_range (today : Z) (start_date end_date : value)
  : result bool :=
  try_except
    (if negb (is_date start_date) then Raise (DateValidationError StartNotADate) else
     if negb (is_date end_date) then Raise (DateValidationError EndNotADate) else
     inverted ← gt start_date end_date;
     if inverted : bool then Raise (DateValidationError StartAfterEnd) else
     start_future ← gt start_date (VDate today);
     if start_future : bool then Raise (DateValidationError StartInFuture) else
     end_future ← gt end_date (VDate today);
     if end_future : bool then Raise (DateValidationError EndInFuture) else
     date_range ← days_between end_date start_date;
     if MAX_DATE_RANGE_DAYS <? date_range
     then Raise (DateValidationError RangeTooLong) else
     one_year_ago ← minus_days today 365;
     too_old ← lt start_date one_year_ago;
     if too_old : bool then Raise (DateValidationError StartTooOld) else
     Ok true)
    (fun e =>
       if is_DateValidationError e then Raise e
       else Raise (DateValidationError UnexpectedFailure)).

Definition get_available_field_names : list string :=
  map field_name DEFAULT_TASK_FIELDS.

Definition get_required_field_names : list string :=
  map field_name (List.filter required DEFAULT_TASK_FIELDS).

(** [field['key']] *)
Definition key_of (field : gmap string value) : result value :=
  match field !! "key" with
  | Some k => Ok k
  | None => Raise KeyError
  end.

Fixpoint keys_of (definitions : list (gmap string value)) : result (list value) :=
  match definitions with
  | [] => Ok []
  | field :: rest => k ← key_of field; ks ← keys_of rest; Ok (k :: ks)
  end.

(** [field in available_fields] for a string [field]: a string equals no
    value of another type. *)
Definition among (field : string) (available_fields : list value) : bool :=
  existsb (fun v => match v with VStr s => String.eqb s field | _ => false end)
    available_fields.

(** The names a selection is checked against: the keys of the field
    definitions when the caller passes some, the static catalog
    otherwise. *)
Definition available_fields_of
    (available_field_definitions : option (list (gmap string value)))
  : result (list value) :=
  match available_field_definitions with
  | Some ((_ :: _) as definitions) => keys_of definitions
  | _ => Ok (map VStr get_available_field_names)
  end.

(** Unknown fields are dropped; a selection with nothing left is an
    error. *)
Definition drop_invalid (selected_fields : list string) (available_fields : list value)
  : result (list string) :=
  let invalid_fields :=
    List.filter (fun field => negb (among field available_fields)) selected_fields in
  match invalid_fields with
  | [] => Ok selected_fields
  | _ =>
      match List.filter (fun field => among field available_fields)
              selected_fields with
      | [] => Raise (ValidationError "selected_fields")
      | kept => Ok kept
      end
  end.

Section WithLibrary.
Variable isoformat : value -> string.
(** [list(set(l))]: the distinct elements of [l] in the order in which
    the set iterates. *)
Variable list_of_set : list string -> list string.

(** Required fields that are not selected are appended and the list is
    rebuilt from a set. *)
Definition force_required (selected_fields : list string) : list string :=
  let required_fields := get_required_field_names in
  let missing_required :=
    List.filter (fun field => negb (contains field selected_fields))
      required_fields in
  match missing_required with
  | [] => selected_fields
  | _ => list_of_set (selected_fields ++ missing_required)
  end.

(** The loop over the tasks: a task whose conversion raises is recorded
    in [failed_tasks] and skipped. *)
Fixpoint convert_all (tasks : list Task) (selected_fields : list string)
  : list (gmap string value) * list value :=
  match tasks with
  | [] => ([], [])
  | task :: rest =>
      let '(filtered_tasks, failed_tasks) := convert_all rest selected_fields in
      match to_dict isoformat task (Some selected_fields) with
      | Ok filtered_data => (filtered_data :: filtered_tasks, failed_tasks)
      | Raise _ => (filtered_tasks, id task :: failed_tasks)
      end
  end.

(** The decorator [handle_errors(reraise=True)] and the two
    [ErrorContext(reraise=True)] blocks record and re-raise: they leave
    the result unchanged.  When no field was dropped, [extend] also
    changes the caller's list; that effect is not part of the result. *)
Definition filter_tasks_by_fields (tasks : list Task) (selected_fields : list string)
    (available_field_definitions : option (list (gmap string value)))
  : result (list (gmap string value)) :=
  match tasks with
  | [] => Ok []
  | _ =>
  match selected_fields with
  | [] => Raise (ValidationError "selected_fields")
  | _ =>
      available_fields ← available_fields_of available_field_definitions;
      selected_fields ← drop_invalid selected_fields available_fields;
      let selected_fields := force_required selected_fields in
      let '(filtered_tasks, failed_tasks) := convert_all tasks selected_fields in
      match filtered_tasks with
      | [] => Raise TaskManagerError
      | _ => Ok filtered_tasks
      end
  end
  end.

End WithLibrary.

Section WithClient.
Context {S : Type}.
(** [text.isdigit()] *)
Variable isdigit : string -> bool.
(** The ordinal of [date.today()] (read by [_prepare_date_range] and
    again by [validate_date_range]: the same day). *)
Variable today : Z.
(** [self.api_client.get_project_tasks] *)
Variable get_project_tasks : value -> value -> value -> M S (list Task).
Variable time_sleep : float -> M S unit.

Definition validate_project_id (project_id : value) : result bool :=
  if negb (truthy project_id) then Raise (ValidationError "project_id") else
  match project_id with
  | VStr text =>
      if isdigit text then Ok true else Raise (ValidationError "project_id")
  | _ => Raise (ValidationError "project_id")
  end.

Definition _prepare_date_range (start_date end_date : value)
  : result (value * value) :=
  start_date ←
    (if is_None start_date then minus_days today DEFAULT_DATE_RANGE_DAYS
     else Ok start_date);
  let end_date := if is_None end_date then VDate today else end_date in
  validate_date_range today start_date end_date;;
  Ok (start_date, end_date).

(** The body of [get_tasks]: both [except] clauses raise
    [TaskManagerError]; [ErrorContext(reraise=True)] lets every exception
    through. *)
Definition get_tasks_body (project_id start_date end_date : value)
  : M S (list Task) :=
  lift (validate_project_id project_id);;
  dates ← lift (_prepare_date_range start_date end_date);
  try_catch (get_project_tasks project_id dates.1 dates.2)
    (fun _ => raise TaskManagerError).

(** [get_tasks] as decorated: [retry_on_error(max_retries=2, delay=1.0,
    retry_on=[AsanaAPIError])], the backoff being the default 2.0. *)
Definition get_tasks (project_id start_date end_date : value) : M S (list Task) :=
  ErrorHandler.retry_on_error time_sleep 2 1 2
    (Some [ErrorHandler.is_AsanaAPIError])
    (get_tasks_body project_id start_date end_date).

End WithClient.

End TaskManager.

(** ** [asana_client.py]: request execution *)

Module AsanaClient.

Definition MAX_RETRIES : Z := 3.
Definition RETRY_DELAY : Z := 1.

(** What the client reads of a [requests.Response]: the status, the value
    of [headers.get('Retry-After')] and the outcome of [response.json()]
    ([None] when the body is not JSON). *)
Record Response (Body : Type) := {
  status_code : Z;
  retry_after : option string;
  json : option Body
}.
Arguments status_code {Body} _.
Arguments retry_after {Body} _.
Arguments json {Body} _.

(** [response.ok]: [raise_for_status] raises for the codes 400 to 599. *)
Definition ok {Body} (response : Response Body) : bool :=
  negb ((400 <=? status_code response) && (status_code response <? 600)).

(** What [session.request] does on one call. *)
Inductive outcome (Body : Type) :=
| Responds (response : Response Body)
| Fails (e : exn).
Arguments Responds {Body} response.
Arguments Fails {Body} e.

(** What the client does to the world, in order. *)
Inductive event :=
| Requested
| Slept (seconds : num)
| Metrics (status : Z) (retries : Z).

(** The number of calls made to [session.request], the local variable
    [retry_count] of [_make_request], and the events so far. *)
Record state := { calls : nat; retry_count : Z; log : list event }.

Definition emit (e : event) : M state unit :=
  modify (fun s => {| calls := calls s; retry_count := retry_count s;
                      log := log s ++ [e] |}).

(** [retry_count += 1] *)
Definition count_retry : M state unit :=
  modify (fun s => {| calls := calls s; retry_count := retry_count s + 1;
                      log := log s |}).

(** Modelled from the spec: [utils.debug_info.log_api_metrics] is not
    among the sources; the spec says it appends a line to a metrics log
    after every API call.  It is an event carrying the status it is given
    and the retry count at the time of the call. *)
Definition log_api_metrics (status : Z) : M state unit :=
  s ← get; emit (Metrics status (retry_count s)).

Section WithServer.
Context {Body : Type}.
(** The answer of the network to the n-th call of [session.request]. *)
Variable server : nat -> outcome Body.
(** [float(text)]; [None] when it raises [ValueError]. *)
Variable parse_float : string -> option float.
(** The exception [time.sleep] raises for a [float] length it rejects
    (negative, NaN or too large). *)
Variable float_sleep_error : float -> option exn.

(** [time.sleep(seconds)].  An [int] is first converted to nanoseconds
    ([OverflowError] beyond 64 bits), then refused when negative
    ([ValueError]). *)
Definition sleep (seconds : num) : M state unit :=
  match seconds with
  | Int z =>
      if (z <? -9223372036) || (9223372036 <? z) then raise OverflowError
      else if z <? 0 then raise ValueError
      else emit (Slept seconds)
  | Float f =>
      match float_sleep_error f with
      | Some e => raise e
      | None => emit (Slept seconds)
      end
  end.

Definition session_request : M state (Response Body) :=
  fun s =>
    let s' := {| calls := S (calls s); retry_count := retry_count s;
                 log := log s ++ [Requested] |} in
    match server (calls s) with
    | Responds response => (Ok response, s')
    | Fails e => (Raise e, s')
    end.

Definition _handle_rate_limit (response : Response Body) (attempt : Z)
  : M state unit :=
  if MAX_RETRIES - 1 <=? attempt then raise AsanaRateLimitError
  else
    let wait_time :=
      match retry_after response with
      | Some text =>
          if String.eqb text "" then None
          else Float <$> parse_float text
      | None => None
      end in
    let wait_time :=
      match wait_time with
      | Some w => w
      | None => Int (2 ^ attempt * RETRY_DELAY)
      end in
    sleep wait_time.

Definition _handle_error_response {A} (response : Response Body) : M state A :=
  let status := status_code response in
  if (status =? 401) || (status =? 403) then raise AuthenticationError
  else raise (APIError (Some status)).

(** The body of the [try] of one attempt.  [None] stands for
    [continue]: the loop goes to the next attempt. *)
Definition try_body (attempt : Z) : M state (option Body) :=
  response ← session_request;
  log_api_metrics (status_code response);;
  if status_code response =? 429 then
    count_retry;;
    _handle_rate_limit response attempt;;
    mret None
  else
    (if ok response then mret tt else _handle_error_response response);;
    match json response with
    | Some body => mret (Some body)
    | None => raise AsanaAPIError
    end.

(** The [except] clauses, in the order of the source. *)
Definition handlers (attempt : Z) (e : exn) : M state (option Body) :=
  match e with
  | Timeout | ConnectionError =>
      count_retry;;
      if attempt =? MAX_RETRIES - 1 then
        log_api_metrics 0;;
        raise NetworkError
      else
        sleep (Int RETRY_DELAY);;
        mret None
  | RequestException =>
      log_api_metrics 0;;
      raise NetworkError
  | AuthenticationError | APIError _ | NetworkError
  | AsanaAPIError | AsanaAuthenticationError | AsanaRateLimitError =>
      raise e
  | _ =>
      log_api_metrics 0;;
      raise AsanaAPIError
  end.

(** One iteration of the loop: the [try] with its [except] clauses. *)
Definition attempt_once (attempt : Z) : M state (option Body) :=
  try_catch (try_body attempt) (handlers attempt).

(** [for attempt in range(MAX_RETRIES)], from [attempt] on, with
    [remaining] iterations left; after the last one, the [raise] that
    follows the loop. *)
Fixpoint attempts (remaining : nat) (attempt : Z) : M state Body :=
  match remaining with
  | O => raise AsanaAPIError
  | S remaining' =>
      returned ← attempt_once attempt;
      match returned with
      | Some body => mret body
      | None => attempts remaining' (attempt + 1)
      end
  end.

(** [ErrorContext(reraise=True)] records the exception and lets it
    through. *)
Definition _make_request : M state Body :=
  attempts (Z.to_nat MAX_RETRIES) 0.

End WithServer.

Definition initial : state := {| calls := 0; retry_count := 0; log := [] |}.

(** The lengths of the sleeps, in order. *)
Definition sleeps (s : state) : list num :=
  omap (fun e => match e with Slept d => Some d | _ => None end) (log s).

(** Every call is answered with status 429 and no [Retry-After]. *)
Definition always_rate_limited {Body} (server : nat -> outcome Body) : Prop :=
  forall n, exists response,
    server n = Responds response
    /\ status_code response = 429
    /\ retry_after response = None.

(** A server that answers every call with 429 and no [Retry-After]. *)
Definition busy_server : nat -> outcome unit :=
  fun _ => Responds {| status_code := 429; retry_after := None; json := None |}.

End AsanaClient.

(** ** [excel_exporter.py]: progress and estimates *)

Module ExcelExporter.

(** The part of an [ExcelExporter] the progress reports depend on: the
    callback given to [export_to_excel] (its result, for every argument),
    and the arguments it has been called with so far. *)
Record exporter := {
  progress_callback : option (Z -> result unit);
  reported : list Z
}.

(** [self.progress_callback(value)] *)
Definition call_progress_callback (callback : Z -> result unit) (value : Z)
  : M exporter unit :=
  fun self =>
    (callback value,
     {| progress_callback := progress_callback self;
        reported := reported self ++ [value] |}).

Definition _update_progress (progress : Z) : M exporter unit :=
  self ← get;
  match progress_callback self with
  | Some callback => call_progress_callback callback (Z.min (Z.max progress 0) 100)
  | None => mret tt
  end.

(** Any sequence of progress reports: the values [export_to_excel] passes
    to [_update_progress] (10, the computed percentages of the batches, 90,
    100), here arbitrary.  An exception raised by the callback ends the
    export. *)
Fixpoint report_all (computed : list Z) : M exporter unit :=
  match computed with
  | [] => mret tt
  | progress :: rest => _update_progress progress;; report_all rest
  end.

Definition estimate_processing_time (task_count field_count : Z) : result Z :=
  tasks ← float_of_Z task_count;
  let base_time := (tasks * 0.01)%float in
  fields ← float_of_Z (field_count - 5);
  let field_factor := (1 + fields * 0.1)%float in
  let format_time := (tasks * 0.005)%float in
  let total_time := (base_time * field_factor + format_time)%float in
  seconds ← int_of_float total_time;
  Ok (Z.max 1 (Z.min seconds 300)).

Definition get_memory_usage_estimate (task_count field_count : Z) : result Z :=
  fields ← float_of_Z field_count;
  let per_task_memory := (fields * 0.5)%float in
  tasks ← float_of_Z task_count;
  let total_memory := (tasks * per_task_memory / 1024)%float in
  (* [max(10, x)] is [x] when [x > 10] and the integer 10 otherwise; the
     sum that follows converts that 10 to a float. *)
  let overhead :=
    if PrimFloat.ltb 10 (total_memory * 0.3)%float
    then (total_memory * 0.3)%float else 10%float in
  int_of_float (total_memory + overhead)%float.

End ExcelExporter.

(** ** [config_manager.py]: the encrypted configuration store *)

Module ConfigManager.

Abbreviation bytes := string.

(** The library functions the store calls: [Fernet.encrypt] (which draws a
    timestamp and an initialisation vector, here [entropy]),
    [Fernet.decrypt], [base64.b64encode], [base64.b64decode],
    [str.encode('utf-8')] and [bytes.decode('utf-8')].  [None] stands for
    the exception the function raises on what it rejects.  [int_parses]
    says whether [int(text)] returns, for the text the ASCII rule does
    not settle ([Py.short_ascii]). *)
Record crypto := {
  fernet_encrypt : bytes -> nat -> bytes -> bytes;
  fernet_decrypt : bytes -> bytes -> option bytes;
  b64encode : bytes -> bytes;
  b64decode : bytes -> option bytes;
  encode_utf8 : string -> bytes;
  decode_utf8 : bytes -> option string;
  int_parses : string -> bool
}.

(** What the documentation of these libraries promises. *)
Record crypto_laws (c : crypto) : Prop := {
  fernet_roundtrip :
    forall key entropy plain,
      fernet_decrypt c key (fernet_encrypt c key entropy plain) = Some plain;
  b64_roundtrip :
    forall data, b64decode c (b64encode c data) = Some data;
  utf8_roundtrip :
    forall text, decode_utf8 c (encode_utf8 c text) = Some text;
  utf8_encode_decoded :
    forall data text, decode_utf8 c data = Some text -> encode_utf8 c text = data;
  b64_is_text :
    forall data, is_Some (decode_utf8 c (b64encode c data));
  token_not_empty :
    forall key entropy plain,
      decode_utf8 c (b64encode c (fernet_encrypt c key entropy plain)) <> Some ""
}.

(** What reading the configuration file gives: a JSON document; text
    that is not JSON ([json.load] raises [JSONDecodeError]); bytes that
    are not UTF-8 (the read raises [UnicodeDecodeError]); or a file that
    [open] refuses ([OSError]). *)
Inductive file :=
| Json (document : json)
| Garbage
| Undecodable
| Unopenable.

Inductive primitive_call :=
| Encrypted (plain : bytes)
| Decrypted (token : bytes).

(** The world around a [ConfigManager]: the home directory and the file
    system queries of [pathlib] ([path_render s] is [str(Path(s))];
    [path_fault s] says that [os.stat] fails on [s] with an [OSError]
    that [pathlib] does not read as an absent file: a name too long, a
    directory that may not be searched), the configuration file, whether
    the coming attempts to write it fail, the state of the random source,
    and the calls made to Fernet so far.  The directory of the
    configuration file was made by [__init__]: [os.stat] does not fail on
    the file. *)
Record world := {
  home : string;
  path_exists : string -> bool;
  path_is_dir : string -> bool;
  path_fault : string -> bool;
  path_render : string -> string;
  config_file : option file;
  write_faults : list bool;
  entropy : nat;
  primitive_calls : list primitive_call
}.

Definition set_config_file (content : option file) (faults : list bool) (w : world)
  : world :=
  {| home := home w; path_exists := path_exists w; path_is_dir := path_is_dir w;
     path_fault := path_fault w;
     path_render := path_render w; config_file := content;
     write_faults := faults; entropy := entropy w;
     primitive_calls := primitive_calls w |}.

Definition record_call (call : primitive_call) (used : nat) (w : world) : world :=
  {| home := home w; path_exists := path_exists w; path_is_dir := path_is_dir w;
     path_fault := path_fault w;
     path_render := path_render w; config_file := config_file w;
     write_faults := write_faults w; entropy := entropy w + used;
     primitive_calls := primitive_calls w ++ [call] |}.

(** [Path(path).exists()] and [Path(path).is_dir()] *)
Definition Path_exists (path : string) : M world bool :=
  w ← get;
  if path_fault w path then raise OSError else mret (path_exists w path).

Definition Path_is_dir (path : string) : M world bool :=
  w ← get;
  if path_fault w path then raise OSError else mret (path_is_dir w path).

(** A [ConfigManager]: the key read or created by [__init__]. *)
Record manager := { encryption_key : bytes }.

Section WithCrypto.
Variable c : crypto.
Variable self : manager.

(** [self._fernet.encrypt(plain)] *)
Definition encrypt (plain : bytes) : M world bytes :=
  fun w =>
    (Ok (fernet_encrypt c (encryption_key self) (entropy w) plain),
     record_call (Encrypted plain) 1 w).

(** [self._fernet.decrypt(token)] *)
Definition decrypt (token : bytes) : M world bytes :=
  fun w =>
    (match fernet_decrypt c (encryption_key self) token with
     | Some plain => Ok plain
     | None => Raise InvalidToken
     end,
     record_call (Decrypted token) 0 w).

Definition encrypt_sensitive_data (data : json) : M world string :=
  if negb (json_truthy data) then mret ""
  else
    try_catch
      (match data with
       | JStr text =>
           encrypted_data ← encrypt (encode_utf8 c text);
           match decode_utf8 c (b64encode c encrypted_data) with
           | Some encoded => mret encoded
           | None => raise ValueError
           end
       | _ => raise AttributeError
       end)
      (fun _ => raise ValueError).

Definition decrypt_sensitive_data (encrypted_data : json) : M world string :=
  if negb (json_truthy encrypted_data) then mret ""
  else
    try_catch
      (match encrypted_data with
       | JStr text =>
           match b64decode c (encode_utf8 c text) with
           | Some decoded_data =>
               decrypted_data ← decrypt decoded_data;
               match decode_utf8 c decrypted_data with
               | Some plain => mret plain
               | None => raise ValueError
               end
           | None => raise ValueError
           end
       | _ => raise AttributeError
       end)
      (fun _ => raise ValueError).

End WithCrypto.

Definition get_default_config (home : string) : json :=
  JDict
    {[ "asana" :=
         JDict {[ "access_token" := JStr "";
                  "selected_project_id" := JStr "";
                  "selected_project_name" := JStr "" ]};
       "export" :=
         JDict {[ "default_date_range" := JInt 30;
                  "selected_fields" :=
                    JList (map JStr ["name"; "created_at"; "assignee";
                                     "completed"; "due_date"]);
                  "output_directory" := JStr (joinpath home "Documents") ]};
       "ui" :=
         JDict {[ "window_size" := JStr "800x600";
                  "last_export_path" := JStr "" ]} ]}.

(** [for section in required_sections: if section not in config: raise] *)
Fixpoint check_sections (required_sections : list string) (config : json)
  : result unit :=
  match required_sections with
  | [] => Ok tt
  | section :: rest =>
      present ← json_contains config section;
      if present : bool then check_sections rest config else Raise ValueError
  end.

Section WithLibrary.
Variable c : crypto.

(** Whether [int(text)] returns. *)
Definition int_returns (text : string) : bool :=
  if short_ascii text then int_accepts text else int_parses c text.

(** The check of the form of [window_size]: the [try] whose [ValueError]
    (from the unpacking of the two parts or from [int]) is raised again as
    a [ValueError]. *)
Definition check_window_size (window_size : string) : result unit :=
  if negb (String.eqb window_size "") && occurs "x" window_size then
    match split_on "x" window_size with
    | [width; height] =>
        if int_returns width && int_returns height then Ok tt
        else Raise ValueError
    | _ => Raise ValueError
    end
  else Ok tt.

(** The [except Exception] of [validate_config] logs and raises again. *)
Definition validate_config (config : json) : result bool :=
  check_sections ["asana"; "export"; "ui"] config;;
  asana_config ← json_subscript config "asana";
  token ← json_get asana_config "access_token" (JStr "");
  if negb (json_is_str token) then Raise ValueError else
  project_id ← json_get asana_config "selected_project_id" (JStr "");
  if negb (json_is_str project_id) then Raise ValueError else
  project_name ← json_get asana_config "selected_project_name" (JStr "");
  if negb (json_is_str project_name) then Raise ValueError else
  export_config ← json_subscript config "export";
  date_range ← json_get export_config "default_date_range" (JInt 0);
  if negb (json_is_int date_range) then Raise ValueError else
  if json_int_value date_range <=? 0 then Raise ValueError else
  fields ← json_get export_config "selected_fields" (JList []);
  if negb (json_is_list fields) then Raise ValueError else
  output_dir ← json_get export_config "output_directory" (JStr "");
  if negb (json_is_str output_dir) then Raise ValueError else
  ui_config ← json_subscript config "ui";
  window_size ← json_get ui_config "window_size" (JStr "");
  match window_size with
  | JStr text => check_window_size text;; Ok true
  | _ => Raise ValueError
  end.

End WithLibrary.

(** [config["asana"]["access_token"] = value] *)
Definition set_access_token (config : json) (value : json) : result json :=
  match config with
  | JDict m =>
      match m !! "asana" with
      | Some (JDict asana) =>
          Ok (JDict (<["asana" := JDict (<["access_token" := value]> asana)]> m))
      | Some _ => Raise TypeError
      | None => Raise KeyError
      end
  | _ => Raise TypeError
  end.

(** [config.get("asana", {}).get("access_token")] *)
Definition stored_access_token (config : json) : result json :=
  asana_config ← json_get config "asana" (JDict ∅);
  json_get asana_config "access_token" JNull.

Section WithCrypto.
Variable c : crypto.
Variable self : manager.

(** [self.config_file.exists()] *)
Definition config_exists : M world bool :=
  w ← get; mret (bool_decide (is_Some (config_file w))).

(** [open] and [json.load] of the configuration file *)
Definition read_config (content : file) : M world json :=
  match content with
  | Json document => mret document
  | Garbage => raise JSONDecodeError
  | Undecodable => raise UnicodeDecodeError
  | Unopenable => raise OSError
  end.

Definition load_config : M world json :=
  w ← get;
  match config_file w with
  | None => mret (get_default_config (home w))
  | Some content =>
      try_catch
        (config ← read_config content;
         token ← lift (stored_access_token config);
         config ←
           (if json_truthy token then
              plain ← decrypt_sensitive_data c self token;
              lift (set_access_token config (JStr plain))
            else mret config);
         lift (validate_config c config);;
         mret config)
        (fun e =>
           if is_JSONDecodeError e then raise ValueError
           else mret (get_default_config (home w)))
  end.

(** Writing the temporary file and moving it over the configuration file.
    When the write fails the temporary file is removed and the
    configuration file is as before. *)
Definition write_config (document : json) : M world unit :=
  fun w =>
    match write_faults w with
    | true :: later => (Raise OSError, set_config_file (config_file w) later w)
    | false :: later => (Ok tt, set_config_file (Some (Json document)) later w)
    | [] => (Ok tt, set_config_file (Some (Json document)) [] w)
    end.

(** [copy.deepcopy] gives a value of its own to change; the caller's
    mapping is a value here and cannot be changed. *)
Definition save_config (config : json) : M world unit :=
  lift (validate_config c config);;
  token ← lift (stored_access_token config);
  config_to_save ←
    (if json_truthy token then
       encrypted ← encrypt_sensitive_data c self token;
       lift (set_access_token config (JStr encrypted))
     else mret config);
  try_catch (write_config config_to_save) (fun _ => raise OSError).

End WithCrypto.

(** A small instance of [crypto] on which the functions can be run: the
    token is the plain text behind a one-byte version mark, base64 and
    UTF-8 are taken as the identity. *)
Definition example_crypto : crypto :=
  {| fernet_encrypt := fun _ _ plain => String "g" plain;
     fernet_decrypt := fun _ token =>
       match token with
       | String "g" plain => Some plain
       | _ => None
       end;
     b64encode := fun data => data;
     b64decode := fun data => Some data;
     encode_utf8 := fun text => text;
     decode_utf8 := fun data => Some data;
     int_parses := fun _ => false |}.

(** A world to run the store in: a new installation, every path an
    existing directory, a disk that accepts every write. *)
Definition example_world : world :=
  {| home := "/home/user";
     path_exists := fun _ => true;
     path_is_dir := fun _ => true;
     path_fault := fun _ => false;
     path_render := fun path => path;
     config_file := None;
     write_faults := [];
     entropy := 0;
     primitive_calls := [] |}.

(** [config["export"]["output_directory"]], when the entries exist *)
Definition configured_output_directory (config : json) : option json :=
  match config with
  | JDict m =>
      match m !! "export" with
      | Some (JDict export_config) => export_config !! "output_directory"
      | _ => None
      end
  | _ => None
  end.

(** The example world of a user who has no Documents directory. *)
Definition world_without_documents : world :=
  {| home := "/home/user";
     path_exists := fun path => String.eqb path "/home/user";
     path_is_dir := fun path => String.eqb path "/home/user";
     path_fault := fun _ => false;
     path_render := fun path => path;
     config_file := None;
     write_faults := [];
     entropy := 0;
     primitive_calls := [] |}.

(** The example world of a user in whose home directory nothing can be
    looked for (a home directory that may not be searched). *)
Definition unsearchable_world : world :=
  {| home := "/home/user";
     path_exists := fun _ => false;
     path_is_dir := fun _ => false;
     path_fault := fun path => String.prefix "/home/user/" path;
     path_render := fun path => path;
     config_file := None;
     write_faults := [];
     entropy := 0;
     primitive_calls := [] |}.



End ConfigManager.

(** ** [config_initializer.py] *)

Module ConfigInitializer.
Import ConfigSchema ConfigManager.

Section WithCrypto.
Variable c : crypto.
Variable config_manager : manager.

Definition is_first_run : M world bool :=
  existing ← config_exists; mret (negb existing).

Definition set_output_directory (directory : json) (config : AppConfig) : AppConfig :=
  {| asana := asana config;
     export := {| default_date_range := default_date_range (export config);
                  selected_fields := selected_fields (export config);
                  output_directory := directory |};
     ui := ui config |}.

Definition set_selected_fields (fields : json) (config : AppConfig) : AppConfig :=
  {| asana := asana config;
     export := {| default_date_range := default_date_range (export config);
                  selected_fields := fields;
                  output_directory := output_directory (export config) |};
     ui := ui config |}.

Definition set_access_token_of (token : json) (config : AppConfig) : AppConfig :=
  {| asana := {| access_token := token;
                 selected_project_id := selected_project_id (asana config);
                 selected_project_name := selected_project_name (asana config) |};
     export := export config;
     ui := ui config |}.

Definition initialize_default_config : M world AppConfig :=
  w ← get;
  let config := AppConfig_init (home w) in
  let documents_path := joinpath (home w) "Documents" in
  found ← Path_exists documents_path;
  let config :=
    if found : bool
    then set_output_directory (JStr documents_path) config
    else set_output_directory (JStr (home w)) config in
  let config :=
    set_selected_fields (JList (map JStr DEFAULT_SELECTED_FIELDS)) config in
  try_catch
    (save_config c config_manager (to_dict config);;
     mret config)
    (fun _ => raise RuntimeError).

Definition initialize_with_user_input (access_token output_directory : string)
    (selected_fields : option (list string)) : M world AppConfig :=
  w ← get;
  let config := AppConfig_init (home w) in
  let config :=
    if negb (String.eqb access_token "")
    then set_access_token_of (JStr access_token) config else config in
  config ←
    (if negb (String.eqb output_directory "") then
       found ← Path_exists output_directory;
       is_directory ← (if found : bool then Path_is_dir output_directory
                       else mret false);
       if is_directory : bool
       then mret (set_output_directory
                    (JStr (path_render w output_directory)) config)
       else mret (set_output_directory
                    (JStr (joinpath (home w) "Documents")) config)
     else mret config);
  let config :=
    match selected_fields with
    | Some ((_ :: _) as fields) =>
        set_selected_fields (JList (map JStr (validate_selected_fields fields))) config
    | _ => config
    end in
  try_catch
    (save_config c config_manager (to_dict config);;
     mret config)
    (fun _ => raise RuntimeError).

(** The [try] of [setup_application]. *)
Definition setup_body (access_token output_directory : string)
    (selected_fields : option (list string)) : M world AppConfig :=
  first_run ← is_first_run;
  if first_run : bool then
    if negb (String.eqb access_token "")
       || negb (String.eqb output_directory "")
       || match selected_fields with Some (_ :: _) => true | _ => false end
    then initialize_with_user_input access_token output_directory selected_fields
    else initialize_default_config
  else
    config_dict ← load_config c config_manager;
    w ← get;
    lift (from_dict (home w) config_dict).

Definition setup_application (access_token output_directory : string)
    (selected_fields : option (list string)) : M world AppConfig :=
  try_catch
    (setup_body access_token output_directory selected_fields)
    (fun _ => initialize_default_config).

End WithCrypto.

(** The configuration built by [initialize_default_config], before it is
    saved. *)
Definition default_config_for (w : world) : AppConfig :=
  set_selected_fields (JList (map JStr DEFAULT_SELECTED_FIELDS))
    (set_output_directory
       (JStr (if path_exists w (joinpath (home w) "Documents")
              then joinpath (home w) "Documents" else home w))
       (AppConfig_init (home w))).

End ConfigInitializer.

(** * Theorems *)

(** ** Field selection ([config_schema.py]) *)

Section FieldSelection.
Import ConfigSchema.

Lemma contains_true x l : contains x l = true <-> x ∈ l.
Proof. unfold contains. apply bool_decide_eq_true. Qed.

Lemma contains_false x l : contains x l = false <-> x ∉ l.
Proof. unfold contains. apply bool_decide_eq_false. Qed.

Lemma contains_cons_ne x y l : x <> y -> contains x (y :: l) = contains x l.
Proof.
  intros Hne. unfold contains. apply bool_decide_ext.
  rewrite elem_of_cons. naive_solver.
Qed.

Lemma add_required_spec sel : add_required sel = missing_required sel ++ sel.
Proof.
  unfold add_required, missing_required, REQUIRED_FIELDS. cbn [fold_left List.filter].
  destruct (contains "name" sel) eqn:Hn; cbn [negb].
  - destruct (contains "created_at" sel); reflexivity.
  - rewrite contains_cons_ne by discriminate.
    destruct (contains "created_at" sel); reflexivity.
Qed.

Lemma missing_required_in_catalog sel :
  List.filter in_catalog (missing_required sel) = missing_required sel.
Proof.
  unfold missing_required. cbn [List.filter].
  destruct (contains "created_at" sel), (contains "name" sel); reflexivity.
Qed.

Lemma required_present sel r :
  r ∈ REQUIRED_FIELDS -> r ∈ missing_required sel ++ List.filter in_catalog sel.
Proof.
  intros Hr. rewrite elem_of_app.
  destruct (contains r sel) eqn:Hc.
  - right. apply list_elem_of_In, filter_In. split.
    + apply list_elem_of_In, contains_true, Hc.
    + unfold REQUIRED_FIELDS in Hr. set_unfold.
      destruct Hr as [Hr | [Hr | []]]; rewrite Hr; reflexivity.
  - left. unfold missing_required. apply list_elem_of_In, filter_In.
    rewrite Hc. split; [| reflexivity].
    apply list_elem_of_In. unfold REQUIRED_FIELDS in Hr. set_solver.
Qed.

Lemma validate_selected_fields_nonempty sel :
  sel <> [] ->
  validate_selected_fields sel = missing_required sel ++ List.filter in_catalog sel.
Proof.
  intros Hne. destruct sel as [| f fs]; [congruence |].
  unfold validate_selected_fields.
  rewrite add_required_spec, List.filter_app, missing_required_in_catalog.
  reflexivity.
Qed.

Lemma validate_selected_fields_in_catalog sel k :
  k ∈ validate_selected_fields sel -> in_catalog k = true.
Proof.
  destruct sel as [| f fs].
  - cbn. set_unfold. intros H.
    repeat (destruct H as [H | H]; [rewrite H; reflexivity |]). destruct H.
  - unfold validate_selected_fields. intros H.
    apply list_elem_of_In, filter_In in H. apply H.
Qed.

(** [add_required_obj] performs on the object what [fold_left] computes. *)
Lemma add_required_obj_spec required x v (h : store) :
  h !! x = Some v ->
  add_required_obj required x h =
    Some (<[x := fold_left
                   (fun acc r => if contains r acc then acc else r :: acc)
                   required v]> h).
Proof.
  revert v h. induction required as [| r rest IH]; intros v h Hx.
  - cbn [add_required_obj fold_left]. by rewrite insert_id.
  - cbn [add_required_obj fold_left]. rewrite Hx. cbn.
    destruct (contains r v) eqn:Hc; cbn.
    + by apply IH.
    + unfold insert0. rewrite Hx. cbn.
      rewrite (IH (r :: v)) by apply lookup_insert_eq.
      by rewrite insert_insert_eq.
Qed.

Lemma copy_spec (h : store) x v :
  h !! x = Some v -> copy x h = Some (fresh (dom h), <[fresh (dom h) := v]> h).
Proof. intros Hx. unfold copy, new_list. by rewrite Hx. Qed.

Lemma validate_selected_fields_obj_spec (h : store) d s sel :
  h !! d = Some DEFAULT_SELECTED_FIELDS ->
  h !! s = Some sel ->
  exists r h',
    validate_selected_fields_obj d s h = Some (r, h')
    /\ (r ∉ dom h)
    /\ h' !! r = Some (validate_selected_fields sel)
    /\ (forall x, x ∈ dom h -> h' !! x = h !! x).
Proof.
  intros Hd Hs. unfold validate_selected_fields_obj. rewrite Hs.
  pose proof (is_fresh (dom h)) as Hfresh.
  destruct sel as [| f fs]; cbn [mbind option_bind].
  - rewrite (copy_spec _ _ _ Hd).
    eexists _, _. split; [reflexivity |].
    split; [exact Hfresh |]. split; [apply lookup_insert_eq |].
    intros x Hx. apply lookup_insert_ne. intros Heq. by rewrite Heq in Hfresh.
  - rewrite (copy_spec _ _ _ Hs). cbn [mbind option_bind].
    set (x := fresh (dom h)) in *.
    rewrite (add_required_obj_spec _ _ (f :: fs)) by apply lookup_insert_eq.
    cbn [mbind option_bind]. rewrite insert_insert_eq, lookup_insert_eq.
    cbn [mbind option_bind]. unfold new_list.
    set (h2 := <[x := _]> h).
    assert (Hdom : dom h2 = {[x]} ∪ dom h) by apply dom_insert_L.
    set (o := fresh (dom h2)).
    assert (Hr : o ∉ {[x]} ∪ dom h) by (rewrite <- Hdom; apply is_fresh).
    apply not_elem_of_union in Hr as [Hox Hoh].
    apply not_elem_of_singleton in Hox.
    eexists o, _. split; [reflexivity |].
    split; [exact Hoh |]. split; [apply lookup_insert_eq |].
    intros y Hy.
    assert (o <> y) by (intros Heq; by rewrite Heq in Hoh).
    assert (x <> y) by (intros Heq; by rewrite Heq in Hfresh).
    rewrite lookup_insert_ne by done.
    subst h2. by apply lookup_insert_ne.
Qed.

(** C2. For every list of field keys the result of
    [validate_selected_fields] contains "name" and "created_at" and only
    keys of the catalog [AVAILABLE_TASK_FIELDS]; an empty input gives
    exactly the default five fields; a non-empty input gives the missing
    required fields at the front, followed by the input keys that are in
    the catalog, in their input order.  On list objects the result is a
    newly allocated list: it is none of the lists that existed before the
    call (so neither the argument nor [DEFAULT_SELECTED_FIELDS]), and
    every list that existed keeps its contents. *)
Theorem C2_validate_selected_fields :
  forall selected_fields : list string,
    let r := validate_selected_fields selected_fields in
    "name" ∈ r
    /\ "created_at" ∈ r
    /\ (forall k, k ∈ r -> is_Some (AVAILABLE_TASK_FIELDS !! k))
    /\ (selected_fields = [] ->
        r = ["name"; "created_at"; "assignee"; "completed"; "due_date"])
    /\ (selected_fields <> [] ->
        r = missing_required selected_fields
              ++ List.filter in_catalog selected_fields)
    /\ (forall (h : store) (d s : obj),
          h !! d = Some DEFAULT_SELECTED_FIELDS ->
          h !! s = Some selected_fields ->
          exists o h',
            validate_selected_fields_obj d s h = Some (o, h')
            /\ (o ∉ dom h)
            /\ h' !! o = Some r
            /\ (forall x, x ∈ dom h -> h' !! x = h !! x)).
Proof.
  intros sel r.
  assert (Hreq : forall q, q ∈ REQUIRED_FIELDS -> q ∈ r).
  { intros q Hq. subst r. destruct sel as [| f fs].
    - cbn. unfold REQUIRED_FIELDS in Hq. set_solver.
    - rewrite validate_selected_fields_nonempty by discriminate.
      by apply required_present. }
  split; [apply Hreq; unfold REQUIRED_FIELDS; set_solver |].
  split; [apply Hreq; unfold REQUIRED_FIELDS; set_solver |].
  split.
  { intros k Hk. apply validate_selected_fields_in_catalog in Hk.
    unfold in_catalog in Hk. by apply bool_decide_eq_true in Hk. }
  split; [intros ->; reflexivity |].
  split; [apply validate_selected_fields_nonempty |].
  intros h d s. apply validate_selected_fields_obj_spec.
Qed.

Lemma C2_witness :
  let r := validate_selected_fields ["notes"; "bogus"; "created_at"] in
  r = ["name"; "notes"; "created_at"]
  /\ "name" ∈ r
  /\ exists o h',
      validate_selected_fields_obj 1%positive 2%positive
        (<[2%positive := ["notes"; "bogus"; "created_at"]]>
           {[1%positive := DEFAULT_SELECTED_FIELDS]}) = Some (o, h')
      /\ h' !! o = Some r.
Proof.
  pose proof (C2_validate_selected_fields ["notes"; "bogus"; "created_at"])
    as (Hn & _ & _ & _ & Hne & Hobj).
  split; [apply Hne; discriminate |]. split; [exact Hn |].
  destruct (Hobj (<[2%positive := ["notes"; "bogus"; "created_at"]]>
                    {[1%positive := DEFAULT_SELECTED_FIELDS]})
              1%positive 2%positive) as (o & h' & Hrun & _ & Hlook & _).
  - reflexivity.
  - reflexivity.
  - exists o, h'. split; [exact Hrun | exact Hlook].
Defined.

End FieldSelection.

(** ** Date ranges ([task_manager.py]) *)

Section DateRange.
Import Models TaskManager.

(** What [validate_date_range] computes on two plain dates, when
    [today - 365] is a date. *)
Lemma validate_date_range_dates today s e :
  date_min + 365 <= today <= date_max ->
  validate_date_range today (VDate s) (VDate e) =
    if e <? s then Raise (DateValidationError StartAfterEnd)
    else if today <? s then Raise (DateValidationError StartInFuture)
    else if today <? e then Raise (DateValidationError EndInFuture)
    else if 365 <? e - s then Raise (DateValidationError RangeTooLong)
    else if s <? today - 365 then Raise (DateValidationError StartTooOld)
    else Ok true.
Proof.
  intros Htoday. unfold validate_date_range, minus_days, date_min, date_max in *.
  cbn [is_date negb gt lt days_between mbind result_bind try_except].
  destruct (e <? s); [reflexivity |].
  destruct (today <? s); [reflexivity |].
  destruct (today <? e); [reflexivity |].
  unfold MAX_DATE_RANGE_DAYS. destruct (365 <? e - s); [reflexivity |].
  replace (today - 365 <? 1) with false by lia.
  replace (3652059 <? today - 365) with false by lia.
  cbn [orb mbind result_bind gt lt try_except]. destruct (s <? today - 365); reflexivity.
Qed.

(** Whatever the arguments, the only exception that leaves
    [validate_date_range] is a [DateValidationError]. *)
Lemma validate_date_range_raises today start_date end_date e :
  validate_date_range today start_date end_date = Raise e ->
  exists why, e = DateValidationError why.
Proof.
  unfold validate_date_range, try_except.
  match goal with |- context [match ?b with Ok _ => _ | Raise _ => _ end] =>
    destruct b as [v | e'] end.
  - discriminate.
  - destruct e'; cbn; intros [= <-]; eauto.
Qed.

(** A call that returns was given two plain dates. *)
Lemma validate_date_range_ok_dates today start_date end_date b :
  validate_date_range today start_date end_date = Ok b ->
  exists s e, start_date = VDate s /\ end_date = VDate e.
Proof.
  intros H. unfold validate_date_range in H.
  destruct start_date as [| | | | | s | d1 t1 o1 |];
    try (cbn in H; discriminate).
  - destruct end_date as [| | | | | e | d2 t2 o2 |];
      try (cbn in H; discriminate); eauto.
  - exfalso.
    destruct end_date as [| | | | | e | d2 t2 o2 |];
      try (cbn in H; discriminate).
    + destruct o1; cbn in H; discriminate.
    + cbn [is_date negb] in H.
      destruct (gt (VDateTime d1 t1 o1) (VDateTime d2 t2 o2)) as [[] | e0] eqn:Hgt;
        cbn [mbind result_bind try_except is_DateValidationError] in H;
        try discriminate.
      * destruct o1; cbn in H; discriminate.
      * destruct (is_DateValidationError e0); discriminate.
Qed.

Lemma validate_date_range_returns_true today start_date end_date b :
  validate_date_range today start_date end_date = Ok b -> b = true.
Proof.
  intros H.
  destruct (validate_date_range_ok_dates _ _ _ _ H) as (s & e & -> & ->).
  unfold validate_date_range, minus_days in H.
  cbn [is_date negb gt lt days_between mbind result_bind] in H.
  repeat match type of H with
         | context [if ?c then _ else _] =>
             destruct c; cbn [mbind result_bind gt lt try_except
                                is_DateValidationError] in H
         end; congruence.
Qed.

(** C3. With [today] the current date (late enough for [today - 366] to
    be a date, and not the last date of the calendar),
    [validate_date_range] succeeds exactly when both arguments are plain
    dates with start <= end, start <= today, end <= today,
    end - start <= 365 and start >= today - 365; every other call raises
    a [DateValidationError]; [(today - 365, today)] succeeds,
    [(today - 366, today)] fails (the check of the 365-day span comes
    before the check of the age of the start, so the error raised is the
    one for a range that is too long) and [(today, today + 1)] fails
    because the end is in the future. *)
Theorem C3_validate_date_range :
  forall today : Z,
    date_min + 366 <= today < date_max ->
    (forall start_date end_date,
        validate_date_range today start_date end_date = Ok true <->
        exists s e,
          start_date = VDate s /\ end_date = VDate e
          /\ s <= e /\ s <= today /\ e <= today
          /\ e - s <= 365 /\ today - 365 <= s)
    /\ (forall start_date end_date,
          validate_date_range today start_date end_date = Ok true
          \/ exists why,
              validate_date_range today start_date end_date
              = Raise (DateValidationError why))
    /\ validate_date_range today (VDate (today - 365)) (VDate today) = Ok true
    /\ validate_date_range today (VDate (today - 366)) (VDate today)
       = Raise (DateValidationError RangeTooLong)
    /\ validate_date_range today (VDate today) (VDate (today + 1))
       = Raise (DateValidationError EndInFuture).
Proof.
  intros today Htoday.
  assert (Hrange : date_min + 365 <= today <= date_max) by lia.
  split; [| split; [| repeat split]].
  - intros start_date end_date. split.
    + intros H.
      destruct (validate_date_range_ok_dates _ _ _ _ H) as (s & e & -> & ->).
      exists s, e. rewrite validate_date_range_dates in H by exact Hrange.
      destruct (e <? s) eqn:H1; [discriminate |].
      destruct (today <? s) eqn:H2; [discriminate |].
      destruct (today <? e) eqn:H3; [discriminate |].
      destruct (365 <? e - s) eqn:H4; [discriminate |].
      destruct (s <? today - 365) eqn:H5; [discriminate |].
      repeat split; lia.
    + intros (s & e & -> & -> & H1 & H2 & H3 & H4 & H5).
      rewrite validate_date_range_dates by exact Hrange.
      replace (e <? s) with false by lia.
      replace (today <? s) with false by lia.
      replace (today <? e) with false by lia.
      replace (365 <? e - s) with false by lia.
      replace (s <? today - 365) with false by lia.
      reflexivity.
  - intros start_date end_date.
    destruct (validate_date_range today start_date end_date) as [b | e] eqn:H.
    + left. by rewrite (validate_date_range_returns_true _ _ _ _ H).
    + right. destruct (validate_date_range_raises _ _ _ _ H) as [why ->].
      by exists why.
  - rewrite validate_date_range_dates by exact Hrange.
    replace (today <? today - 365) with false by lia.
    rewrite Z.ltb_irrefl.
    replace (365 <? today - (today - 365)) with false by lia.
    by rewrite Z.ltb_irrefl.
  - rewrite validate_date_range_dates by exact Hrange.
    replace (today <? today - 366) with false by lia.
    rewrite Z.ltb_irrefl.
    replace (365 <? today - (today - 366)) with true by lia.
    reflexivity.
  - rewrite validate_date_range_dates by exact Hrange.
    replace (today + 1 <? today) with false by lia.
    rewrite Z.ltb_irrefl.
    replace (today <? today + 1) with true by lia.
    reflexivity.
Qed.

(** The theorem at 2024-01-01 (ordinal 738886). *)
Lemma C3_witness :
  validate_date_range 738886 (VDate 738521) (VDate 738886) = Ok true
  /\ validate_date_range 738886 (VDate 738520) (VDate 738886)
     = Raise (DateValidationError RangeTooLong)
  /\ validate_date_range 738886 (VDate 738886) (VDate 738887)
     = Raise (DateValidationError EndInFuture).
Proof.
  assert (H : date_min + 366 <= 738886 < date_max)
    by (unfold date_min, date_max; lia).
  destruct (C3_validate_date_range 738886 H) as (_ & _ & H1 & H2 & H3).
  exact (conj H1 (conj H2 H3)).
Defined.

End DateRange.

(** ** Rows made from tasks ([task_manager.py], [models.py]) *)

Section TaskRows.
Import Models TaskManager.

Variable re_match_digits : string -> bool.
Variable isoformat : value -> string.
Variable list_of_set : list string -> list string.
(** A list made from a set holds the distinct elements, in some order. *)
Hypothesis list_of_set_perm : forall l, list_of_set l ≡ₚ remove_dups l.

Lemma list_of_set_elem x l : x ∈ list_of_set l <-> x ∈ l.
Proof. rewrite list_of_set_perm. apply elem_of_remove_dups. Qed.

Lemma base_data_name t base :
  base_data isoformat t = Ok base -> is_Some (base !! "name").
Proof.
  unfold base_data. intros H.
  destruct (isoformat_if isoformat (created_at t)) as [c |]; [| discriminate].
  destruct (isoformat_if isoformat (modified_at t)) as [m |]; [| discriminate].
  destruct (isoformat_if isoformat (due_date t)) as [d |]; [| discriminate].
  cbn [mbind result_bind] in H.
  destruct (custom_fields t) as [| | | | | | | items]; try discriminate.
  injection H as <-. apply lookup_union_is_Some. right.
  exists (name t). by simplify_map_eq.
Qed.

Lemma restrict_lookup (base : gmap string value) fields key :
  key ∈ fields -> restrict base fields !! key = base !! key.
Proof.
  intros Hin. unfold restrict.
  destruct (base !! key) as [v |] eqn:Hb.
  - destruct (list_to_map (M := gmap string value)
                (omap (fun k => (fun v => (k, v)) <$> base !! k) fields) !! key)
      as [w |] eqn:Hl.
    + apply elem_of_list_to_map_2, list_elem_of_omap in Hl as (k & _ & Hk).
      destruct (base !! k) as [u |] eqn:Hu; [| discriminate].
      cbn in Hk. injection Hk as <- <-. congruence.
    + exfalso. apply not_elem_of_list_to_map in Hl. apply Hl.
      apply list_elem_of_fmap. exists (key, v). split; [reflexivity |].
      apply list_elem_of_omap. exists key. split; [exact Hin |].
      by rewrite Hb.
  - apply not_elem_of_list_to_map. intros Hk.
    apply list_elem_of_fmap in Hk as ([k w] & -> & Hkw).
    apply list_elem_of_omap in Hkw as (k' & _ & Hk').
    destruct (base !! k') as [u |] eqn:Hu; [| discriminate].
    cbn in Hk'. injection Hk' as <- <-. cbn in Hb. congruence.
Qed.

Lemma to_dict_name t fields row :
  "name" ∈ fields ->
  to_dict isoformat t (Some fields) = Ok row -> is_Some (row !! "name").
Proof.
  intros Hin. unfold to_dict.
  destruct (base_data isoformat t) as [base |] eqn:Hb; [| discriminate].
  cbn [mbind result_bind]. apply base_data_name in Hb.
  destruct fields as [| f fs]; intros [= <-]; [exact Hb |].
  rewrite (restrict_lookup _ _ _ Hin). exact Hb.
Qed.

(** A task that passed [validate] converts without raising. *)
Lemma to_dict_valid t fields :
  validate re_match_digits t = Ok tt ->
  exists row, to_dict isoformat t (Some fields) = Ok row.
Proof.
  unfold validate. intros H.
  repeat match type of H with
         | (if ?c then _ else _) = _ => destruct c eqn:?; [discriminate |]
         end.
  destruct (gt (created_at t) (modified_at t)) as [[] |]; try discriminate.
  cbn [mbind result_bind] in H.
  repeat match type of H with
         | (if ?c then _ else _) = _ => destruct c eqn:?; [discriminate |]
         end.
  unfold to_dict, base_data, isoformat_if.
  destruct (created_at t); try discriminate.
  destruct (modified_at t); try discriminate.
  destruct (custom_fields t); try discriminate.
  destruct (due_date t); try discriminate;
    cbn; destruct fields; eauto.
Qed.

Lemma convert_all_rows tasks fields :
  Forall (fun row => exists t, t ∈ tasks /\ to_dict isoformat t (Some fields) = Ok row)
    (convert_all isoformat tasks fields).1.
Proof.
  induction tasks as [| t rest IH]; cbn [convert_all]; [constructor |].
  destruct (convert_all isoformat rest fields) as [rows failed].
  cbn [fst] in IH.
  assert (IH' : Forall
            (fun row => exists t0, t0 ∈ t :: rest
                                   /\ to_dict isoformat t0 (Some fields) = Ok row) rows).
  { eapply Forall_impl; [exact IH |]. intros row (t0 & Ht0 & Hrow).
    exists t0. split; [apply elem_of_cons; by right | exact Hrow]. }
  destruct (to_dict isoformat t (Some fields)) as [row |] eqn:Hrow; cbn [fst].
  - constructor; [| exact IH']. exists t. split; [apply elem_of_cons; by left | exact Hrow].
  - exact IH'.
Qed.

Lemma convert_all_valid tasks fields :
  Forall (fun t => validate re_match_digits t = Ok tt) tasks ->
  length (convert_all isoformat tasks fields).1 = length tasks
  /\ (convert_all isoformat tasks fields).2 = [].
Proof.
  induction 1 as [| t rest Ht _ IH]; cbn [convert_all]; [done |].
  destruct (convert_all isoformat rest fields) as [rows failed].
  destruct (to_dict_valid t fields Ht) as [row ->].
  cbn in *. destruct IH as [-> ->]. done.
Qed.

Lemma drop_invalid_subset selected available kept field :
  drop_invalid selected available = Ok kept -> field ∈ kept -> field ∈ selected.
Proof.
  unfold drop_invalid.
  destruct (List.filter (fun f => negb (among f available)) selected).
  - by intros [= <-].
  - destruct (List.filter (fun f => among f available) selected) eqn:Hf;
      [discriminate |].
    intros [= <-] Hin. rewrite <- Hf in Hin.
    apply list_elem_of_In, filter_In in Hin as [Hin _].
    by apply list_elem_of_In.
Qed.

(** A selection with an available field survives [drop_invalid]. *)
Lemma drop_invalid_ok selected available field :
  field ∈ selected -> among field available = true ->
  exists kept, drop_invalid selected available = Ok kept.
Proof.
  intros Hin Hav. unfold drop_invalid.
  destruct (List.filter (fun f => negb (among f available)) selected); [eauto |].
  destruct (List.filter (fun f => among f available) selected) eqn:Hf; [| eauto].
  exfalso. assert (Hk : In field (List.filter (fun f => among f available) selected)).
  { apply filter_In. split; [by apply list_elem_of_In | exact Hav]. }
  rewrite Hf in Hk. destruct Hk.
Qed.

Lemma force_required_name selected :
  "name" ∉ selected -> "name" ∈ force_required list_of_set selected.
Proof.
  intros Hn. unfold force_required.
  assert (Hmiss : "name" ∈ List.filter (fun field => negb (contains field selected))
                    get_required_field_names).
  { apply list_elem_of_In, filter_In. split.
    - cbn. tauto.
    - apply negb_true_iff, bool_decide_eq_false, Hn. }
  destruct (List.filter _ get_required_field_names) as [| m ms] eqn:Hf.
  - by apply elem_of_nil in Hmiss.
  - apply list_of_set_elem, elem_of_app. by right.
Qed.

(** C4. For a selection that omits "name", every row returned by
    [filter_tasks_by_fields] has a "name" entry; and when the task list
    is non-empty, every task is valid and the selection holds at least one
    available field, the call returns one such row per task. *)
Theorem C4_filter_tasks_by_fields :
  forall (tasks : list Task) (selected_fields : list string)
         (available_field_definitions : option (list (gmap string value))),
    "name" ∉ selected_fields ->
    (forall rows,
        filter_tasks_by_fields isoformat list_of_set tasks selected_fields
          available_field_definitions = Ok rows ->
        Forall (fun row => is_Some (row !! "name")) rows)
    /\ (forall available field,
          tasks <> [] ->
          Forall (fun t => validate re_match_digits t = Ok tt) tasks ->
          available_fields_of available_field_definitions = Ok available ->
          field ∈ selected_fields ->
          among field available = true ->
          exists rows,
            filter_tasks_by_fields isoformat list_of_set tasks selected_fields
              available_field_definitions = Ok rows
            /\ length rows = length tasks
            /\ Forall (fun row => is_Some (row !! "name")) rows).
Proof.
  intros tasks selected defs Hname.
  assert (Hrows : forall rows,
             filter_tasks_by_fields isoformat list_of_set tasks selected defs
             = Ok rows ->
             Forall (fun row => is_Some (row !! "name")) rows).
  { intros rows. unfold filter_tasks_by_fields.
    destruct tasks as [| t ts]; [intros [= <-]; constructor |].
    destruct selected as [| f fs]; [discriminate |].
    destruct (available_fields_of defs) as [available |]; [| discriminate].
    cbn [mbind result_bind].
    destruct (drop_invalid (f :: fs) available) as [kept |] eqn:Hkept;
      [| discriminate].
    cbn [mbind result_bind].
    assert (Hk : "name" ∉ kept).
    { intros Hin. apply Hname. eapply drop_invalid_subset; eassumption. }
    pose proof (force_required_name kept Hk) as Hforced.
    pose proof (convert_all_rows (t :: ts) (force_required list_of_set kept))
      as Hall.
    destruct (convert_all isoformat (t :: ts) (force_required list_of_set kept))
      as [filtered failed].
    cbn [fst] in Hall.
    destruct filtered as [| r rs]; [discriminate |]. intros [= <-].
    eapply Forall_impl; [exact Hall |]. intros row (t0 & _ & Hrow).
    eapply to_dict_name; eassumption. }
  split; [exact Hrows |].
  intros available field Htasks Hvalid Hav Hin Hamong.
  destruct (drop_invalid_ok selected available field Hin Hamong) as [kept Hkept].
  pose proof (convert_all_valid tasks (force_required list_of_set kept) Hvalid)
    as [Hlen _].
  assert (Hrun : exists rows,
             filter_tasks_by_fields isoformat list_of_set tasks selected defs
             = Ok rows /\ length rows = length tasks).
  { unfold filter_tasks_by_fields.
    destruct tasks as [| t ts]; [congruence |].
    destruct selected as [| f fs]; [by apply elem_of_nil in Hin |].
    rewrite Hav. cbn [mbind result_bind]. rewrite Hkept. cbn [mbind result_bind].
    destruct (convert_all isoformat (t :: ts) (force_required list_of_set kept))
      as [filtered failed].
    cbn [fst] in Hlen.
    destruct filtered as [| r rs]; [discriminate |]. eauto. }
  destruct Hrun as (rows & Hrun & Hlength).
  exists rows. split; [exact Hrun |]. split; [exact Hlength |].
  by apply Hrows.
Qed.

End TaskRows.

(** One task, the selection ["notes"], no field definitions: the row holds
    "name" although it was not selected. *)
Lemma C4_witness :
  let task := {| Models.id := Models.VStr "42";
                 Models.name := Models.VStr "write report";
                 Models.created_at := Models.VDateTime 738886 0 (Some 0);
                 Models.modified_at := Models.VDateTime 738887 0 (Some 0);
                 Models.completed := Models.VBool false;
                 Models.assignee := Models.VNone;
                 Models.due_date := Models.VNone;
                 Models.notes := Models.VStr "";
                 Models.custom_fields := Models.VDict ∅ |} in
  exists rows,
    TaskManager.filter_tasks_by_fields (fun _ => "2024-01-01") remove_dups
      [task] ["notes"] None = Ok rows
    /\ length rows = 1%nat
    /\ Forall (fun row => is_Some (row !! "name")) rows.
Proof.
  intros task.
  assert (Hname : "name" ∉ ["notes"]).
  { intros [H | H]%elem_of_cons; [discriminate | by apply elem_of_nil in H]. }
  destruct (C4_filter_tasks_by_fields (String.eqb "42") (fun _ => "2024-01-01")
              remove_dups (fun l => reflexivity (remove_dups l))
              [task] ["notes"] None Hname) as [_ H].
  apply (H (map Models.VStr TaskManager.get_available_field_names) "notes").
  - discriminate.
  - repeat constructor.
  - reflexivity.
  - apply elem_of_cons. by left.
  - reflexivity.
Defined.

(** ** Rate limiting ([asana_client.py]) *)

Section RateLimit.
Import AsanaClient.

Context {Body : Type}.
Variable server : nat -> outcome Body.
Variable parse_float : string -> option float.
Variable float_sleep_error : float -> option exn.

(** An attempt before the last one: request, metrics, a sleep of
    [2 ^ attempt] seconds, and on to the next attempt. *)
Lemma rate_limited_attempt_sleeps attempt s :
  always_rate_limited server -> 0 <= attempt < 2 ->
  attempt_once server parse_float float_sleep_error attempt s =
    (Ok None,
     {| calls := S (calls s); retry_count := retry_count s + 1;
        log := log s ++ [Requested; Metrics 429 (retry_count s);
                         Slept (Int (2 ^ attempt))] |}).
Proof.
  intros Hserver Hattempt.
  destruct (Hserver (calls s)) as ([status after body] & Hr & Hstatus & Hafter).
  cbn in Hstatus, Hafter. subst status after.
  assert (Hpow : 1 <= 2 ^ attempt <= 2).
  { assert (attempt = 0 \/ attempt = 1) as [-> | ->] by lia; cbn; lia. }
  unfold attempt_once, try_catch, try_body, session_request, log_api_metrics,
    count_retry, _handle_rate_limit, sleep, emit, modify, get, raise,
    mbind, M_bind, mret, M_ret, MAX_RETRIES, RETRY_DELAY.
  rewrite Hr. cbn -[Z.pow Z.leb Z.ltb Z.sub Z.mul].
  replace (3 - 1 <=? attempt) with false by lia.
  rewrite Z.mul_1_r.
  replace (2 ^ attempt <? -9223372036) with false by lia.
  replace (9223372036 <? 2 ^ attempt) with false by lia.
  replace (2 ^ attempt <? 0) with false by lia.
  cbn -[Z.pow]. rewrite <- ?app_assoc. reflexivity.
Qed.

(** The last attempt: request, metrics, and the rate-limit failure,
    without a sleep. *)
Lemma rate_limited_attempt_gives_up s :
  always_rate_limited server ->
  attempt_once server parse_float float_sleep_error 2 s =
    (Raise AsanaRateLimitError,
     {| calls := S (calls s); retry_count := retry_count s + 1;
        log := log s ++ [Requested; Metrics 429 (retry_count s)] |}).
Proof.
  intros Hserver.
  destruct (Hserver (calls s)) as ([status after body] & Hr & Hstatus & Hafter).
  cbn in Hstatus, Hafter. subst status after.
  unfold attempt_once, try_catch, try_body, session_request, log_api_metrics,
    count_retry, _handle_rate_limit, handlers, emit, modify, get, raise,
    mbind, M_bind, mret, M_ret, MAX_RETRIES.
  rewrite Hr. cbn. rewrite <- ?app_assoc. reflexivity.
Qed.

(** C5.  When every attempt is answered with status 429 and no
    [Retry-After] header, [_make_request] makes three requests, sleeps 1
    second after the first and 2 seconds after the second
    ([2 ^ attempt] times the retry delay), and raises the rate-limit
    failure on the third without sleeping. *)
Theorem C5_rate_limit_backoff :
  always_rate_limited server ->
  exists final,
    _make_request server parse_float float_sleep_error initial
    = (Raise AsanaRateLimitError, final)
    /\ sleeps final = [Int (2 ^ 0 * RETRY_DELAY); Int (2 ^ 1 * RETRY_DELAY)]
    /\ sleeps final = [Int 1; Int 2]
    /\ calls final = 3%nat
    /\ log final = [Requested; Metrics 429 0; Slept (Int 1);
                    Requested; Metrics 429 1; Slept (Int 2);
                    Requested; Metrics 429 2].
Proof.
  intros Hserver. eexists. split.
  - unfold _make_request, MAX_RETRIES.
    change (Z.to_nat 3) with 3%nat. cbn [attempts].
    unfold mbind at 1, M_bind at 1.
    rewrite (rate_limited_attempt_sleeps 0) by (exact Hserver || lia).
    unfold mbind at 1, M_bind at 1.
    rewrite (rate_limited_attempt_sleeps (0 + 1)) by (exact Hserver || lia).
    unfold mbind at 1, M_bind at 1.
    change (0 + 1 + 1) with 2.
    rewrite rate_limited_attempt_gives_up by exact Hserver.
    reflexivity.
  - repeat split; reflexivity.
Qed.

End RateLimit.

Lemma busy_server_always_rate_limited :
  AsanaClient.always_rate_limited AsanaClient.busy_server.
Proof. intros n. eexists. split; [reflexivity |]. split; reflexivity. Qed.

Lemma C5_witness :
  AsanaClient.always_rate_limited AsanaClient.busy_server
  /\ exists final,
      AsanaClient._make_request AsanaClient.busy_server (fun _ => None) (fun _ => None)
        AsanaClient.initial
      = (Raise AsanaRateLimitError, final)
      /\ AsanaClient.sleeps final = [Int 1; Int 2].
Proof.
  split; [exact busy_server_always_rate_limited |].
  destruct (C5_rate_limit_backoff AsanaClient.busy_server (fun _ => None) (fun _ => None)
              busy_server_always_rate_limited)
    as (final & Hrun & _ & Hsleeps & _).
  exists final. split; [exact Hrun | exact Hsleeps].
Defined.

(** The persistently rate-limited server is not given sleeps of 1, 2 and 4
    seconds before the failure, as the specification has it. *)
Lemma C5_counterexample :
  ~ (exists final,
        AsanaClient._make_request AsanaClient.busy_server (fun _ => None) (fun _ => None)
          AsanaClient.initial
        = (Raise AsanaRateLimitError, final)
        /\ AsanaClient.sleeps final = [Int 1; Int 2; Int 4]).
Proof.
  intros (final & Hrun & Hsleeps).
  vm_compute in Hrun. injection Hrun as <-. vm_compute in Hsleeps. discriminate.
Qed.

(** ** Progress and estimates ([excel_exporter.py]) *)

Section Estimates.
Import ExcelExporter.

(** After one report the callback has received one more value, the
    progress clamped to [0, 100]; without a callback nothing is called. *)
Lemma _update_progress_reported progress self :
  reported (_update_progress progress self).2 =
    match progress_callback self with
    | Some _ => reported self ++ [Z.min (Z.max progress 0) 100]
    | None => reported self
    end.
Proof.
  unfold _update_progress, mbind, M_bind, get; cbn.
  destruct (progress_callback self) as [callback |]; cbn; [| reflexivity].
  destruct (callback (Z.min (Z.max progress 0) 100)); reflexivity.
Qed.

Lemma report_all_in_range computed self :
  Forall (fun value => 0 <= value <= 100) (reported self) ->
  Forall (fun value => 0 <= value <= 100) (reported (report_all computed self).2).
Proof.
  revert self. induction computed as [| progress rest IH]; intros self Hself.
  - exact Hself.
  - cbn [report_all]. unfold mbind, M_bind.
    pose proof (_update_progress_reported progress self) as Hrep.
    destruct (_update_progress progress self) as [[[] | e] self'] eqn:Hstep;
      cbn [snd] in Hrep.
    + apply IH. rewrite Hrep.
      destruct (progress_callback self); [| exact Hself].
      apply Forall_app. split; [exact Hself |].
      constructor; [lia | constructor].
    + cbn [snd]. rewrite Hrep.
      destruct (progress_callback self); [| exact Hself].
      apply Forall_app. split; [exact Hself |].
      constructor; [lia | constructor].
Qed.

(** C10.  Whatever the callback and whatever progress values are computed
    (inside or outside [0, 100]), a call of [_update_progress] passes the
    callback the value [min(max(progress, 0), 100)], which lies in
    [0, 100]; so after any sequence of progress reports from a new exporter
    every value the callback has received lies in [0, 100]. *)
Theorem C10_progress_clamped :
  forall (callback : option (Z -> result unit)) (computed : list Z),
    let self := {| progress_callback := callback; reported := [] |} in
    (forall progress,
        reported (_update_progress progress self).2 =
          match callback with
          | Some _ => [Z.min (Z.max progress 0) 100]
          | None => []
          end)
    /\ Forall (fun value => 0 <= value <= 100)
         (reported (report_all computed self).2).
Proof.
  intros callback computed self. split.
  - intros progress. rewrite _update_progress_reported. cbn.
    destruct callback; reflexivity.
  - apply (report_all_in_range computed self). constructor.
Qed.

(** The specification gives 1 for 1000 tasks and 5 fields; the code does
    not. *)
Lemma C6_counterexample : estimate_processing_time 1000 5 <> Ok 1.
Proof. vm_compute. discriminate. Qed.

(** C6, amended.  [estimate_processing_time(1000, 5)] is 15; the floor of
    one second is what [estimate_processing_time(50, 5)] returns;
    [estimate_processing_time(1000000, 5)] is the upper clamp 300;
    [get_memory_usage_estimate(0, 5)] is the overhead floor 10. *)
Theorem C6_estimates :
  estimate_processing_time 1000 5 = Ok 15
  /\ estimate_processing_time 50 5 = Ok 1
  /\ estimate_processing_time 1000000 5 = Ok 300
  /\ get_memory_usage_estimate 0 5 = Ok 10.
Proof. repeat split; vm_compute; reflexivity. Qed.

End Estimates.

(** ** The encrypted store ([config_manager.py]) *)

Section Store.
Import ConfigSchema ConfigManager.

Variable c : crypto.
Variable self : manager.
Hypothesis laws : crypto_laws c.

Lemma truthy_text s : s <> "" -> json_truthy (JStr s) = true.
Proof.
  intros Hs. cbn. apply negb_true_iff. by apply String.eqb_neq.
Qed.

(** Encrypting a non-empty text calls Fernet once and gives a non-empty
    token. *)
Lemma encrypt_sensitive_data_text s w :
  s <> "" ->
  exists token,
    decode_utf8 c
      (b64encode c
         (fernet_encrypt c (encryption_key self) (entropy w) (encode_utf8 c s)))
    = Some token
    /\ token <> ""
    /\ encrypt_sensitive_data c self (JStr s) w
       = (Ok token, record_call (Encrypted (encode_utf8 c s)) 1 w).
Proof.
  intros Hs.
  destruct (b64_is_text c laws
              (fernet_encrypt c (encryption_key self) (entropy w) (encode_utf8 c s)))
    as [token Htoken].
  exists token. split; [exact Htoken |]. split.
  - intros ->. by apply (token_not_empty c laws) in Htoken.
  - unfold encrypt_sensitive_data. rewrite (truthy_text s Hs). cbn [negb].
    unfold try_catch, encrypt, mbind, M_bind. rewrite Htoken. reflexivity.
Qed.

(** Decrypting such a token calls Fernet once and gives the text back. *)
Lemma decrypt_sensitive_data_token s entropy0 token w :
  decode_utf8 c
    (b64encode c
       (fernet_encrypt c (encryption_key self) entropy0 (encode_utf8 c s)))
  = Some token ->
  decrypt_sensitive_data c self (JStr token) w
  = (Ok s,
     record_call
       (Decrypted (fernet_encrypt c (encryption_key self) entropy0 (encode_utf8 c s)))
       0 w).
Proof.
  intros Htoken.
  assert (Hne : token <> "").
  { intros ->. by apply (token_not_empty c laws) in Htoken. }
  unfold decrypt_sensitive_data. rewrite (truthy_text token Hne). cbn [negb].
  unfold try_catch, decrypt, mbind, M_bind.
  rewrite (utf8_encode_decoded c laws _ _ Htoken).
  rewrite (b64_roundtrip c laws), (fernet_roundtrip c laws), (utf8_roundtrip c laws).
  reflexivity.
Qed.

(** C9.  With the encryption, base64 and UTF-8 functions behaving as
    documented: for every non-empty string [s], decrypting the result of
    encrypting [s] gives [s] (one call to each Fernet function); for the
    empty string both functions return the empty string and leave the
    world as it is, so Fernet is not called. *)
Theorem C9_encrypt_decrypt_roundtrip :
  (forall (s : string) (w : world),
      s <> "" ->
      exists token w1 w2,
        encrypt_sensitive_data c self (JStr s) w = (Ok token, w1)
        /\ decrypt_sensitive_data c self (JStr token) w1 = (Ok s, w2)
        /\ length (primitive_calls w2) = S (S (length (primitive_calls w))))
  /\ (forall w : world,
        encrypt_sensitive_data c self (JStr "") w = (Ok "", w)
        /\ decrypt_sensitive_data c self (JStr "") w = (Ok "", w)).
Proof.
  split.
  - intros s w Hs.
    destruct (encrypt_sensitive_data_text s w Hs) as (token & Htoken & _ & Henc).
    eexists token, _, _. split; [exact Henc |]. split.
    + apply (decrypt_sensitive_data_token s (entropy w) token _ Htoken).
    + cbn. rewrite !length_app. cbn. lia.
  - intros w. split; reflexivity.
Qed.

(** A configuration that passes [validate_config] is a dict whose "asana"
    entry is a dict whose "access_token", when present, is a string. *)
Lemma validate_config_shape config b :
  validate_config c config = Ok b ->
  exists m asana_m,
    config = JDict m
    /\ m !! "asana" = Some (JDict asana_m)
    /\ json_is_str (default (JStr "") (asana_m !! "access_token")) = true.
Proof.
  unfold validate_config. intros H.
  destruct (check_sections ["asana"; "export"; "ui"] config) as [[] |] eqn:Hsec;
    [| discriminate].
  cbn [mbind result_bind] in H.
  destruct config as [| | | | | m]; try discriminate.
  cbn [json_subscript] in H.
  destruct (m !! "asana") as [asana_config |] eqn:Hasana; [| discriminate].
  cbn [mbind result_bind] in H.
  destruct asana_config as [| | | | | asana_m]; try discriminate.
  cbn [json_get mbind result_bind] in H.
  destruct (json_is_str (default (JStr "") (asana_m !! "access_token"))) eqn:Htok;
    [| discriminate].
  eauto.
Qed.

Lemma stored_access_token_dict m asana_m :
  m !! "asana" = Some (JDict asana_m) ->
  stored_access_token (JDict m) = Ok (default JNull (asana_m !! "access_token")).
Proof.
  intros Hasana. unfold stored_access_token. cbn. by rewrite Hasana.
Qed.

Lemma set_access_token_dict m asana_m value :
  m !! "asana" = Some (JDict asana_m) ->
  set_access_token (JDict m) value
  = Ok (JDict (<["asana" := JDict (<["access_token" := value]> asana_m)]> m)).
Proof. intros Hasana. unfold set_access_token. by rewrite Hasana. Qed.

(** Loading a file that holds a valid configuration whose token is not
    to be decrypted. *)
Lemma load_config_plain config w :
  config_file w = Some (Json config) ->
  validate_config c config = Ok true ->
  (exists token, stored_access_token config = Ok token /\ json_truthy token = false) ->
  load_config c self w = (Ok config, w).
Proof.
  intros Hfile Hvalid (token & Htoken & Hfalsy).
  unfold load_config, mbind, M_bind, get. rewrite Hfile.
  unfold try_catch, read_config, mbind, M_bind, mret, M_ret, lift.
  rewrite Htoken, Hfalsy, Hvalid. reflexivity.
Qed.

Lemma write_config_ok document w w1 :
  write_config document w = (Ok tt, w1) ->
  config_file w1 = Some (Json document).
Proof.
  unfold write_config.
  destruct (write_faults w) as [| [] later]; intros [= <-]; reflexivity.
Qed.

Lemma validate_config_true config b : validate_config c config = Ok b -> b = true.
Proof.
  unfold validate_config. intros H.
  repeat match type of H with
         | mbind _ ?r = _ =>
             destruct r eqn:?; cbn [mbind result_bind] in H; [| discriminate]
         | (if ?t then _ else _) = _ => destruct t eqn:?; [discriminate |]
         | match ?x with _ => _ end = _ => destruct x eqn:?; try discriminate
         end.
  congruence.
Qed.

(** The round trip, from a successful [save_config]. *)
Lemma save_then_load config w w1 :
  save_config c self config w = (Ok tt, w1) ->
  exists w2, load_config c self w1 = (Ok config, w2).
Proof.
  unfold save_config, mbind at 1, M_bind at 1, lift at 1.
  destruct (validate_config c config) as [b |] eqn:Hvalid; [| discriminate].
  pose proof (validate_config_true _ _ Hvalid) as ->.
  destruct (validate_config_shape _ _ Hvalid) as (m & asana_m & -> & Hasana & Hstr).
  unfold mbind at 1, M_bind at 1, lift at 1.
  rewrite (stored_access_token_dict _ _ Hasana).
  destruct (asana_m !! "access_token") as [token |] eqn:Htoken;
    unfold default in *; cbn [from_option id] in *.
  - destruct token as [| | | s | |]; try discriminate.
    destruct (String.eqb_spec s "") as [-> | Hs].
    + cbn [json_truthy String.eqb negb]. unfold mbind, M_bind, mret, M_ret, try_catch.
      destruct (write_config (JDict m) w) as [[[] |] w'] eqn:Hwrite; [| discriminate].
      intros [= <-]. exists w'. apply load_config_plain.
      * eapply write_config_ok, Hwrite.
      * exact Hvalid.
      * exists (JStr ""). rewrite (stored_access_token_dict _ _ Hasana), Htoken.
        split; reflexivity.
    + rewrite (truthy_text s Hs).
      destruct (encrypt_sensitive_data_text s w Hs) as (tok & Hdec & Htok & Henc).
      unfold mbind at 1, M_bind at 1. unfold mbind at 1, M_bind at 1.
      rewrite Henc. unfold lift.
      rewrite (set_access_token_dict _ _ _ Hasana).
      unfold try_catch.
      set (w' := record_call _ 1 w).
      set (stored := JDict _).
      destruct (write_config stored w') as [[[] |] w1'] eqn:Hwrite; [| discriminate].
      intros [= <-].
      apply write_config_ok in Hwrite.
      unfold load_config, mbind, M_bind, get. rewrite Hwrite.
      unfold try_catch, read_config, mbind, M_bind, mret, M_ret, lift.
      assert (Hst : stored_access_token stored = Ok (JStr tok)).
      { subst stored. erewrite stored_access_token_dict by apply lookup_insert_eq.
        by rewrite lookup_insert_eq. }
      rewrite Hst, (truthy_text tok Htok).
      rewrite (decrypt_sensitive_data_token s (entropy w) tok _ Hdec).
      assert (Hset : set_access_token stored (JStr s) = Ok (JDict m)).
      { subst stored. erewrite set_access_token_dict by apply lookup_insert_eq.
        rewrite !insert_insert_eq.
        rewrite (insert_id asana_m "access_token" (JStr s)) by exact Htoken.
        by rewrite insert_id. }
      rewrite Hset, Hvalid. eauto.
  - cbn [json_truthy]. unfold mbind, M_bind, mret, M_ret, try_catch.
    destruct (write_config (JDict m) w) as [[[] |] w'] eqn:Hwrite; [| discriminate].
    intros [= <-]. exists w'. apply load_config_plain.
    + eapply write_config_ok, Hwrite.
    + exact Hvalid.
    + exists JNull. rewrite (stored_access_token_dict _ _ Hasana), Htoken.
      split; reflexivity.
Qed.

Lemma write_config_no_fault document w :
  hd false (write_faults w) = false ->
  exists w1, write_config document w = (Ok tt, w1).
Proof.
  unfold write_config. destruct (write_faults w) as [| [] later]; cbn; eauto.
  discriminate.
Qed.

(** A valid configuration is saved when the disk accepts the write. *)
Lemma save_config_succeeds config w :
  validate_config c config = Ok true ->
  hd false (write_faults w) = false ->
  exists w1, save_config c self config w = (Ok tt, w1).
Proof.
  intros Hvalid Hdisk.
  destruct (validate_config_shape _ _ Hvalid) as (m & asana_m & -> & Hasana & Hstr).
  unfold save_config, mbind at 1, M_bind at 1, lift at 1. rewrite Hvalid.
  unfold mbind at 1, M_bind at 1, lift at 1.
  rewrite (stored_access_token_dict _ _ Hasana).
  assert (Hplain : exists w1,
             (write_config (JDict m) w) = (Ok tt, w1))
    by (by apply write_config_no_fault).
  destruct (asana_m !! "access_token") as [token |] eqn:Htoken;
    unfold default in *; cbn [from_option id] in *.
  - destruct token as [| | | s | |]; try discriminate.
    destruct (String.eqb_spec s "") as [-> | Hs].
    + cbn [json_truthy String.eqb negb]. unfold mbind, M_bind, mret, M_ret, try_catch.
      destruct Hplain as [w1 ->]. eauto.
    + rewrite (truthy_text s Hs).
      destruct (encrypt_sensitive_data_text s w Hs) as (tok & Hdec & Htok & Henc).
      unfold mbind at 1, M_bind at 1. unfold mbind at 1, M_bind at 1.
      rewrite Henc. unfold lift.
      rewrite (set_access_token_dict _ _ _ Hasana).
      unfold try_catch.
      set (w' := record_call _ 1 w).
      set (stored := JDict _).
      destruct (write_config_no_fault stored w') as [w1 ->]; [exact Hdisk |].
      eauto.
  - cbn [json_truthy]. unfold mbind, M_bind, mret, M_ret, try_catch.
    destruct Hplain as [w1 ->]. eauto.
Qed.

(** C1.  With the encryption, base64 and UTF-8 functions behaving as
    documented: whenever [save_config] returns, [load_config] then returns
    the mapping that was passed to [save_config], access token in plain
    text included; and [save_config] does return for every mapping that
    [validate_config] accepts when the write to the disk does not fail. *)
Theorem C1_save_load_roundtrip :
  forall (config : json) (w : world),
    (forall w1,
        save_config c self config w = (Ok tt, w1) ->
        exists w2, load_config c self w1 = (Ok config, w2))
    /\ (validate_config c config = Ok true ->
        hd false (write_faults w) = false ->
        exists w1 w2,
          save_config c self config w = (Ok tt, w1)
          /\ load_config c self w1 = (Ok config, w2)).
Proof.
  intros config w. split.
  - intros w1. apply save_then_load.
  - intros Hvalid Hdisk.
    destruct (save_config_succeeds config w Hvalid Hdisk) as [w1 Hsave].
    destruct (save_then_load config w w1 Hsave) as [w2 Hload].
    eauto.
Qed.

End Store.

Lemma example_crypto_laws : ConfigManager.crypto_laws ConfigManager.example_crypto.
Proof.
  split; cbn; try done; try congruence; eauto.
Qed.

Lemma C9_witness :
  "secret" <> ""
  /\ exists token w1 w2,
      ConfigManager.encrypt_sensitive_data ConfigManager.example_crypto
        {| ConfigManager.encryption_key := "k" |} (JStr "secret")
        ConfigManager.example_world = (Ok token, w1)
      /\ ConfigManager.decrypt_sensitive_data ConfigManager.example_crypto
           {| ConfigManager.encryption_key := "k" |} (JStr token) w1
         = (Ok "secret", w2).
Proof.
  split; [discriminate |].
  destruct (C9_encrypt_decrypt_roundtrip ConfigManager.example_crypto
              {| ConfigManager.encryption_key := "k" |} example_crypto_laws)
    as [H _].
  destruct (H "secret"
              ConfigManager.example_world)
    as (token & w1 & w2 & Henc & Hdec & _); [discriminate |].
  exists token, w1, w2. split; [exact Henc | exact Hdec].
Defined.

(** The default configuration of a user with the token "secret", saved and
    loaded in the example world. *)
Lemma C1_witness :
  let config :=
    ConfigSchema.to_dict
      (ConfigInitializer.set_access_token_of (JStr "secret")
         (ConfigSchema.AppConfig_init "/home/user")) in
  exists w1 w2,
    ConfigManager.save_config ConfigManager.example_crypto
      {| ConfigManager.encryption_key := "k" |} config ConfigManager.example_world
    = (Ok tt, w1)
    /\ ConfigManager.load_config ConfigManager.example_crypto
         {| ConfigManager.encryption_key := "k" |} w1
       = (Ok config, w2).
Proof.
  intros config.
  destruct (C1_save_load_roundtrip ConfigManager.example_crypto
              {| ConfigManager.encryption_key := "k" |} example_crypto_laws
              config ConfigManager.example_world) as [_ H].
  apply H.
  - vm_compute. reflexivity.
  - reflexivity.
Defined.

(** ** Default configuration and first run ([config_manager.py],
    [config_schema.py], [config_initializer.py]) *)

Section Defaults.
Import ConfigSchema ConfigManager ConfigInitializer.

Variable c : crypto.
Variable config_manager : manager.

Lemma string_length_append (a b : string) :
  String.length (a +:+ b) = (String.length a + String.length b)%nat.
Proof. induction a as [| ch a IH]; simpl; [reflexivity | f_equal; exact IH]. Qed.

(** The Documents directory is never the home directory itself. *)
Lemma documents_not_home (directory : string) :
  joinpath directory "Documents" <> directory.
Proof.
  unfold joinpath. intros H. apply (f_equal String.length) in H.
  destruct (String.eqb directory "/") eqn:E.
  - apply String.eqb_eq in E. rewrite E in H. discriminate.
  - rewrite !string_length_append in H. cbn in H. lia.
Qed.

Lemma default_config_valid w : validate_config c (to_dict (default_config_for w)) = Ok true.
Proof. reflexivity. Qed.

(** [Path.exists], evaluated. *)
Lemma Path_exists_run path w :
  Path_exists path w
  = if path_fault w path then (Raise OSError, w) else (Ok (path_exists w path), w).
Proof. unfold Path_exists, mbind, M_bind, get. by destruct (path_fault w path). Qed.

Lemma Path_is_dir_run path w :
  Path_is_dir path w
  = if path_fault w path then (Raise OSError, w) else (Ok (path_is_dir w path), w).
Proof. unfold Path_is_dir, mbind, M_bind, get. by destruct (path_fault w path). Qed.

(** What [initialize_default_config] does: the check for the Documents
    directory raises [OSError] before anything else is done; otherwise
    the default configuration is saved and returned, or [RuntimeError] is
    raised when the write fails. *)
Lemma initialize_default_config_spec w :
  initialize_default_config c config_manager w =
    if path_fault w (joinpath (home w) "Documents") then (Raise OSError, w)
    else
      match write_faults w with
      | true :: later =>
          (Raise RuntimeError, set_config_file (config_file w) later w)
      | faults =>
          (Ok (default_config_for w),
           set_config_file (Some (Json (to_dict (default_config_for w))))
             (tl faults) w)
      end.
Proof.
  unfold initialize_default_config, mbind at 1, M_bind at 1, get.
  unfold mbind at 1, M_bind at 1. rewrite Path_exists_run.
  destruct (path_fault w (joinpath (home w) "Documents")); [reflexivity |].
  replace (if path_exists w (joinpath (home w) "Documents")
           then set_output_directory (JStr (joinpath (home w) "Documents"))
                  (AppConfig_init (home w))
           else set_output_directory (JStr (home w)) (AppConfig_init (home w)))
    with (set_output_directory
            (JStr (if path_exists w (joinpath (home w) "Documents")
                   then joinpath (home w) "Documents" else home w))
            (AppConfig_init (home w)))
    by (destruct (path_exists w (joinpath (home w) "Documents")); reflexivity).
  fold (default_config_for w).
  unfold try_catch, save_config, mbind, M_bind, lift.
  rewrite default_config_valid.
  change (stored_access_token (to_dict (default_config_for w))) with (Ok (JStr "")).
  cbn [json_truthy String.eqb negb mret M_ret].
  unfold try_catch, write_config.
  destruct (write_faults w) as [| [] later]; reflexivity.
Qed.


(** C7, amended.  [get_default_config] and the defaults of the
    configuration records always give the Documents directory under the
    home directory as [output_directory], whether it exists or not (and
    that path is never the home directory); the choice between Documents,
    when it exists, and the home directory is made by
    [initialize_default_config]. *)
Theorem C7_default_output_directory :
  forall w : world,
    configured_output_directory (get_default_config (home w))
    = Some (JStr (joinpath (home w) "Documents"))
    /\ output_directory (export (AppConfig_init (home w)))
       = JStr (joinpath (home w) "Documents")
    /\ joinpath (home w) "Documents" <> home w
    /\ (forall config w',
          initialize_default_config c config_manager w = (Ok config, w') ->
          output_directory (export config)
          = JStr (if path_exists w (joinpath (home w) "Documents")
                  then joinpath (home w) "Documents" else home w)).
Proof.
  intros w. split; [reflexivity |]. split; [reflexivity |].
  split; [apply documents_not_home |].
  intros config w'. rewrite initialize_default_config_spec.
  destruct (path_fault w (joinpath (home w) "Documents")); [discriminate |].
  destruct (write_faults w) as [| [] later]; intros [= <- _]; reflexivity.
Qed.


End Defaults.

(** A user without a Documents directory: the default configuration still
    names Documents, not the home directory. *)
Lemma C7_counterexample :
  ~ (ConfigManager.path_exists ConfigManager.world_without_documents
       (joinpath (ConfigManager.home ConfigManager.world_without_documents) "Documents")
     = false ->
     ConfigManager.configured_output_directory
       (ConfigManager.get_default_config
          (ConfigManager.home ConfigManager.world_without_documents))
     = Some (JStr (ConfigManager.home ConfigManager.world_without_documents))).
Proof. intros H. specialize (H eq_refl). vm_compute in H. discriminate. Qed.

Lemma C7_witness :
  exists config w',
    ConfigInitializer.initialize_default_config ConfigManager.example_crypto
      {| ConfigManager.encryption_key := "k" |} ConfigManager.world_without_documents
    = (Ok config, w')
    /\ ConfigSchema.output_directory (ConfigSchema.export config) = JStr "/home/user".
Proof.
  pose proof (initialize_default_config_spec ConfigManager.example_crypto
                {| ConfigManager.encryption_key := "k" |}
                ConfigManager.world_without_documents) as Hrun.
  cbn [ConfigManager.write_faults ConfigManager.world_without_documents tl] in Hrun.
  eexists _, _. split; [exact Hrun |].
  destruct (C7_default_output_directory ConfigManager.example_crypto
              {| ConfigManager.encryption_key := "k" |}
              ConfigManager.world_without_documents) as (_ & _ & _ & H).
  exact (H _ _ Hrun).
Defined.



(** A home directory in which the Documents directory cannot be looked
    for: the check of the fallback raises, and so does
    [setup_application]. *)
Lemma setup_application_unsearchable_home :
  (ConfigInitializer.setup_application ConfigManager.example_crypto
     {| ConfigManager.encryption_key := "k" |} "" "" None
     ConfigManager.unsearchable_world).1
  = Raise OSError.
Proof. vm_compute. reflexivity. Qed.


(** ** Configuration records ([config_schema.py]) *)

Section ConfigRecords.
Import ConfigSchema.

(** Keyword arguments that are all parameters are accepted as they are. *)
Lemma keyword_arguments_ok allowed (m : gmap string json) :
  (forall k, is_Some (m !! k) -> k ∈ allowed) ->
  keyword_arguments allowed (JDict m) = Ok m.
Proof.
  intros H. unfold keyword_arguments.
  destruct (forallb _ _) eqn:E; [reflexivity |].
  exfalso. apply not_true_iff_false in E. apply E.
  apply forallb_forall. intros [k v] Hin.
  apply contains_true, H.
  apply list_elem_of_In, elem_of_map_to_list in Hin. eauto.
Qed.

(** One keyword argument that is no parameter is refused. *)
Lemma keyword_arguments_unknown allowed (m : gmap string json) k v :
  m !! k = Some v -> k ∉ allowed ->
  keyword_arguments allowed (JDict m) = Raise TypeError.
Proof.
  intros Hk Hnot. unfold keyword_arguments.
  destruct (forallb _ _) eqn:E; [| reflexivity].
  exfalso. apply Hnot.
  rewrite forallb_forall in E.
  apply contains_true.
  apply (E (k, v)), list_elem_of_In, elem_of_map_to_list, Hk.
Qed.

(** What [from_dict] makes of a [to_dict]: the same attributes, after
    the replacements of [ExportConfig.__post_init__]. *)
Lemma from_dict_of_to_dict (home : string) (config : AppConfig) :
  from_dict home (to_dict config)
  = Ok {| asana := asana config;
          export :=
            {| default_date_range := default_date_range (export config);
               selected_fields :=
                 match selected_fields (export config) with
                 | JNull => JList (map JStr DEFAULT_SELECTED_FIELDS)
                 | fields => fields
                 end;
               output_directory :=
                 if json_truthy (output_directory (export config))
                 then output_directory (export config)
                 else JStr (documents home) |};
          ui := ui config |}.
Proof.
  destruct config as [[token pid pname] [range fields directory] [size path]].
  cbn [selected_fields output_directory default_date_range export asana ui].
  destruct (json_truthy directory) eqn:Hdir;
    destruct fields; vm_compute in Hdir |- *; rewrite Hdir; reflexivity.
Qed.

(** X1.  Round trip of the configuration records: a configuration whose
    [selected_fields] is not [None] and whose [output_directory] is true
    (the two attributes [__post_init__] replaces) is given back by
    [from_dict] from its [to_dict]. *)
Theorem from_dict_to_dict (home : string) (config : AppConfig) :
  selected_fields (export config) <> JNull ->
  json_truthy (output_directory (export config)) = true ->
  from_dict home (to_dict config) = Ok config.
Proof.
  intros Hfields Hdirectory.
  rewrite from_dict_of_to_dict, Hdirectory.
  destruct config as [[token pid pname] [range fields directory] [size path]].
  cbn [selected_fields output_directory default_date_range export asana ui] in *.
  by destruct fields.
Qed.

Lemma from_dict_to_dict_witness :
  exists config,
    config = AppConfig_init "/home/user"
    /\ from_dict "/home/user" (to_dict config) = Ok config.
Proof.
  eexists. split; [reflexivity |].
  apply from_dict_to_dict; [discriminate | reflexivity].
Defined.

(** X2.  [from_dict] reads the three sections only.  A mapping without
    them gives the configuration of [AppConfig()], whatever other keys it
    has; inside a section a key that is no attribute of the record is a
    [TypeError], as is a section that is no mapping; and data that is no
    mapping has no [get]: [AttributeError]. *)
Theorem from_dict_sections (home : string) :
  (forall m : gmap string json,
      m !! "asana" = None -> m !! "export" = None -> m !! "ui" = None ->
      from_dict home (JDict m) = Ok (AppConfig_init home))
  /\ (forall (m section : gmap string json) k v,
        m !! "asana" = Some (JDict section) ->
        section !! k = Some v ->
        k ∉ ["access_token"; "selected_project_id"; "selected_project_name"] ->
        from_dict home (JDict m) = Raise TypeError)
  /\ (forall (m : gmap string json) other,
        m !! "asana" = Some other ->
        (forall section, other <> JDict section) ->
        from_dict home (JDict m) = Raise TypeError)
  /\ (forall data,
        (forall m, data <> JDict m) ->
        from_dict home data = Raise AttributeError).
Proof.
  repeat split.
  - intros m Ha He Hu. unfold from_dict. cbn [json_get mbind result_bind].
    rewrite Ha, He, Hu. reflexivity.
  - intros m section k v Ha Hk Hnot. unfold from_dict.
    cbn [json_get mbind result_bind]. rewrite Ha.
    unfold default; cbn [from_option id].
    rewrite (keyword_arguments_unknown _ _ _ _ Hk Hnot). reflexivity.
  - intros m other Ha Hother. unfold from_dict.
    cbn [json_get mbind result_bind]. rewrite Ha.
    unfold default; cbn [from_option id].
    destruct other; try reflexivity. by destruct (Hother m0).
  - intros data Hdata. unfold from_dict.
    destruct data; try reflexivity. by destruct (Hdata m).
Qed.

(** X3.  [validate_selected_fields] is idempotent: a validated selection
    is left as it is by a second validation. *)
Theorem validate_selected_fields_idempotent (selected_fields : list string) :
  validate_selected_fields (validate_selected_fields selected_fields)
  = validate_selected_fields selected_fields.
Proof.
  destruct selected_fields as [| first rest]; [reflexivity |].
  set (sel := first :: rest).
  assert (Hsel : sel <> []) by discriminate.
  set (r := validate_selected_fields sel).
  assert (Hname : "name" ∈ r).
  { unfold r. rewrite validate_selected_fields_nonempty by exact Hsel.
    apply required_present. set_solver. }
  assert (Hcreated : "created_at" ∈ r).
  { unfold r. rewrite validate_selected_fields_nonempty by exact Hsel.
    apply required_present. set_solver. }
  assert (Hr : r <> []) by (intros E; rewrite E in Hname; set_solver).
  rewrite (validate_selected_fields_nonempty r Hr).
  unfold missing_required. cbn [List.filter].
  apply contains_true in Hname, Hcreated. rewrite Hname, Hcreated.
  cbn [negb app].
  apply forallb_filter_id, forallb_forall. intros k Hk.
  apply list_elem_of_In in Hk.
  exact (validate_selected_fields_in_catalog sel k Hk).
Qed.

End ConfigRecords.

(** ** What the store accepts, returns and leaves alone
    ([config_manager.py]) *)

Section StoreBehaviour.
Import ConfigSchema ConfigManager.

Variable c : crypto.
Variable self : manager.







(** On text that is ASCII and short, [int] follows the ASCII rule. *)
Lemma int_returns_ascii text :
  short_ascii text = true -> int_returns c text = int_accepts text.
Proof. unfold int_returns. by intros ->. Qed.



(** The exceptions of the functions [load_config] calls on a document:
    none is a [JSONDecodeError]. *)
Ltac raised :=
  let H := fresh in intros H; first [discriminate H | by injection H as <-].

Lemma json_get_raises mapping key default_value e :
  json_get mapping key default_value = Raise e -> is_JSONDecodeError e = false.
Proof. destruct mapping; cbn; raised. Qed.

Lemma json_subscript_raises container key e :
  json_subscript container key = Raise e -> is_JSONDecodeError e = false.
Proof.
  destruct container; cbn; try raised.
  destruct (_ !! _); raised.
Qed.

Lemma json_contains_raises container key e :
  json_contains container key = Raise e -> is_JSONDecodeError e = false.
Proof. destruct container; cbn; raised. Qed.

Lemma check_sections_raises sections config e :
  check_sections sections config = Raise e -> is_JSONDecodeError e = false.
Proof.
  induction sections as [| section rest IH]; cbn [check_sections]; [raised |].
  destruct (json_contains config section) as [[] |] eqn:E;
    cbn [mbind result_bind]; [exact IH | raised |].
  intros [= <-]. exact (json_contains_raises _ _ _ E).
Qed.

Lemma check_window_size_raises text e :
  check_window_size c text = Raise e -> e = ValueError.
Proof.
  unfold check_window_size.
  repeat match goal with
         | |- context [if ?t then _ else _] => destruct t
         | |- context [match ?x with _ => _ end] => destruct x
         end; congruence.
Qed.

Lemma stored_access_token_raises config e :
  stored_access_token config = Raise e -> is_JSONDecodeError e = false.
Proof.
  unfold stored_access_token.
  destruct (json_get config "asana" (JDict ∅)) eqn:E; cbn [mbind result_bind].
  - apply json_get_raises.
  - intros [= <-]. exact (json_get_raises _ _ _ _ E).
Qed.

Lemma set_access_token_raises config value e :
  set_access_token config value = Raise e -> is_JSONDecodeError e = false.
Proof.
  unfold set_access_token.
  repeat match goal with
         | |- context [match ?x with _ => _ end] => destruct x
         end; raised.
Qed.

Lemma validate_config_raises config e :
  validate_config c config = Raise e -> is_JSONDecodeError e = false.
Proof.
  unfold validate_config. intros H.
  repeat match type of H with
         | mbind _ ?r = _ =>
             let E := fresh "E" in
             destruct r eqn:E; cbn [mbind result_bind] in H;
             [| injection H as <-;
                eauto using json_get_raises, json_subscript_raises,
                  check_sections_raises;
                by rewrite (check_window_size_raises _ _ E)]
         | (if ?t then _ else _) = _ => destruct t eqn:?; [by injection H as <- |]
         | match ?x with _ => _ end = _ =>
             destruct x eqn:?; try by injection H as <-
         end.
  discriminate.
Qed.

(** The two helpers change nothing of the world but the record of the
    calls to Fernet and the random source, and raise [ValueError] only. *)
Lemma decrypt_sensitive_data_effect data w r w' :
  decrypt_sensitive_data c self data w = (r, w') ->
  (w' = w \/ exists token, w' = record_call (Decrypted token) 0 w)
  /\ (forall e, r = Raise e -> e = ValueError).
Proof.
  unfold decrypt_sensitive_data.
  destruct (json_truthy data); cbn [negb];
    [| intros [= <- <-]; split; [by left | congruence]].
  unfold try_catch, decrypt, raise, mbind, M_bind, mret, M_ret.
  destruct data; try (intros [= <- <-]; split; [by left | congruence]).
  destruct (b64decode c _); [| intros [= <- <-]; split; [by left | congruence]].
  destruct (fernet_decrypt c _ _);
    [destruct (decode_utf8 c _) |];
    intros [= <- <-]; (split; [right; eauto | congruence]).
Qed.


Lemma default_config_is_valid home : validate_config c (get_default_config home) = Ok true.
Proof. reflexivity. Qed.

(** [load_config], by what the configuration file holds. *)
Lemma load_config_cases (w : world) :
  match config_file w with
  | None | Some Undecodable | Some Unopenable =>
      load_config c self w = (Ok (get_default_config (home w)), w)
  | Some Garbage => load_config c self w = (Raise ValueError, w)
  | Some (Json document) =>
      exists config w',
        load_config c self w = (Ok config, w')
        /\ validate_config c config = Ok true
        /\ (config = document \/ config = get_default_config (home w)
            \/ exists plain, set_access_token document (JStr plain) = Ok config)
        /\ (w' = w \/ exists token, w' = record_call (Decrypted token) 0 w)
  end.
Proof.
  destruct (config_file w) as [[document | | |] |] eqn:Hfile;
    unfold load_config, mbind, M_bind, get; rewrite Hfile;
    [| reflexivity | reflexivity | reflexivity | reflexivity].
  unfold try_catch, read_config, lift, raise, mbind, M_bind, mret, M_ret.
  destruct (stored_access_token document) as [token | e] eqn:Htoken.
  2:{ rewrite (stored_access_token_raises _ _ Htoken).
      eexists _, _. split; [reflexivity |].
      split; [apply default_config_is_valid |]. split; [by right; left | by left]. }
  destruct (json_truthy token).
  - destruct (decrypt_sensitive_data c self token w) as [[plain | e] w1] eqn:Hdec;
      destruct (decrypt_sensitive_data_effect _ _ _ _ Hdec) as [Hw1 He].
    + destruct (set_access_token document (JStr plain)) as [config | e] eqn:Hset.
      * destruct (validate_config c config) as [b | e] eqn:Hvalid.
        -- eexists _, _. split; [reflexivity |].
           split; [by rewrite (validate_config_true _ _ _ Hvalid) in Hvalid |].
           split; [right; right; eauto | exact Hw1].
        -- rewrite (validate_config_raises _ _ Hvalid).
           eexists _, _. split; [reflexivity |].
           split; [apply default_config_is_valid |].
           split; [by right; left | exact Hw1].
      * rewrite (set_access_token_raises _ _ _ Hset).
        eexists _, _. split; [reflexivity |].
        split; [apply default_config_is_valid |].
        split; [by right; left | exact Hw1].
    + rewrite (He e eq_refl). cbn [is_JSONDecodeError].
      eexists _, _. split; [reflexivity |].
      split; [apply default_config_is_valid |].
      split; [by right; left | exact Hw1].
  - destruct (validate_config c document) as [b | e] eqn:Hvalid.
    + eexists _, _. split; [reflexivity |].
      split; [by rewrite (validate_config_true _ _ _ Hvalid) in Hvalid |].
      split; [by left | by left].
    + rewrite (validate_config_raises _ _ Hvalid).
      eexists _, _. split; [reflexivity |].
      split; [apply default_config_is_valid |]. split; [by right; left | by left].
Qed.


(** X6.  [load_config] only reads: the configuration file, the pending
    write faults, the home directory and the random source are as before,
    whatever it returns or raises. *)
Theorem load_config_reads_only (w : world) r w' :
  load_config c self w = (r, w') ->
  config_file w' = config_file w
  /\ write_faults w' = write_faults w
  /\ home w' = home w
  /\ entropy w' = entropy w.
Proof.
  intros Hload. pose proof (load_config_cases w) as H.
  destruct (config_file w) as [[document | | |] |] eqn:Hfile.
  - destruct H as (config & w1 & Hload' & _ & _ & Hw).
    rewrite Hload in Hload'. injection Hload' as -> <-.
    destruct Hw as [-> | [token ->]]; cbn; rewrite ?Hfile; repeat split; lia.
  - rewrite Hload in H. by injection H as -> <-.
  - rewrite Hload in H. by injection H as -> <-.
  - rewrite Hload in H. by injection H as -> <-.
  - rewrite Hload in H. by injection H as -> <-.
Qed.

(** X7.  A stored token that cannot be decrypted (a changed key, a token
    edited by hand) is no error for the caller: [load_config] returns the
    default configuration, and with it drops every stored setting. *)
Theorem load_config_undecryptable (w : world) (document token : json) :
  config_file w = Some (Json document) ->
  stored_access_token document = Ok token ->
  json_truthy token = true ->
  (decrypt_sensitive_data c self token w).1 = Raise ValueError ->
  (load_config c self w).1 = Ok (get_default_config (home w)).
Proof.
  intros Hfile Htoken Htruthy Hdec.
  unfold load_config, mbind, M_bind, get. rewrite Hfile.
  unfold try_catch, read_config, lift, raise, mbind, M_bind, mret, M_ret.
  rewrite Htoken, Htruthy.
  destruct (decrypt_sensitive_data c self token w) as [r w1].
  cbn [fst] in Hdec. rewrite Hdec. reflexivity.
Qed.




End StoreBehaviour.

Lemma load_config_reads_only_witness :
  ConfigManager.config_file
    (ConfigManager.load_config ConfigManager.example_crypto
       {| ConfigManager.encryption_key := "k" |}
       (ConfigManager.set_config_file
          (Some (ConfigManager.Json
                   (ConfigSchema.to_dict
                      (ConfigInitializer.set_access_token_of (JStr "gsecret")
                         (ConfigSchema.AppConfig_init "/home/user")))))
          [] ConfigManager.example_world)).2
  = Some (ConfigManager.Json
            (ConfigSchema.to_dict
               (ConfigInitializer.set_access_token_of (JStr "gsecret")
                  (ConfigSchema.AppConfig_init "/home/user")))).
Proof.
  exact (proj1 (load_config_reads_only ConfigManager.example_crypto
                  {| ConfigManager.encryption_key := "k" |} _ _ _
                  (surjective_pairing _))).
Defined.

Lemma load_config_undecryptable_witness :
  (ConfigManager.load_config ConfigManager.example_crypto
     {| ConfigManager.encryption_key := "k" |}
     (ConfigManager.set_config_file
        (Some (ConfigManager.Json
                 (ConfigSchema.to_dict
                    (ConfigInitializer.set_access_token_of (JStr "not a token")
                       (ConfigSchema.AppConfig_init "/home/user")))))
        [] ConfigManager.example_world)).1
  = Ok (ConfigManager.get_default_config "/home/user").
Proof.
  refine (load_config_undecryptable ConfigManager.example_crypto
            {| ConfigManager.encryption_key := "k" |} _
            (ConfigSchema.to_dict
               (ConfigInitializer.set_access_token_of (JStr "not a token")
                  (ConfigSchema.AppConfig_init "/home/user")))
            (JStr "not a token") _ _ _ _);
    vm_compute; reflexivity.
Defined.

(** ** First run and later runs ([config_initializer.py]) *)

Section FirstRun.
Import ConfigSchema ConfigManager ConfigInitializer.

Variable c : crypto.
Variable config_manager : manager.

(** What [initialize_with_user_input] does before it saves: the check of
    the entered directory raises [OSError] when the directory cannot be
    looked for; otherwise a configuration is built and saved. *)
Lemma initialize_with_user_input_builds token directory fields (w : world) :
  if negb (String.eqb directory "") && path_fault w directory
  then initialize_with_user_input c config_manager token directory fields w
       = (Raise OSError, w)
  else
    exists config,
      initialize_with_user_input c config_manager token directory fields w
      = try_catch (save_config c config_manager (to_dict config);; mret config)
          (fun _ => raise RuntimeError) w
      /\ (exists chosen_fields chosen_directory,
            config = {| asana := {| access_token := JStr token;
                                    selected_project_id := JStr "";
                                    selected_project_name := JStr "" |};
                        export := {| default_date_range := JInt 30;
                                     selected_fields := JList (map JStr chosen_fields);
                                     output_directory := JStr chosen_directory |};
                        ui := {| window_size := JStr "800x600";
                                 last_export_path := JStr "" |} |}
            /\ chosen_fields = validate_selected_fields (default [] fields)
            /\ chosen_directory =
                 if negb (String.eqb directory "")
                    && path_exists w directory && path_is_dir w directory
                 then path_render w directory
                 else joinpath (home w) "Documents").
Proof.
  unfold initialize_with_user_input, mbind at 1, M_bind at 1, get.
  cbv zeta. unfold mbind at 1, M_bind at 1.
  destruct (String.eqb directory "") eqn:Hdir; cbn [negb andb].
  - eexists. split; cycle 1.
    { eexists _, _. split; [reflexivity | split; reflexivity]. }
    unfold mret at 1, M_ret at 1.
    destruct (String.eqb_spec token "") as [-> |];
      destruct fields as [[| first rest] |]; reflexivity.
  - unfold mbind, M_bind. rewrite Path_exists_run.
    destruct (path_fault w directory) eqn:Hfault; [reflexivity |].
    eexists. split; cycle 1.
    { eexists _, _. split; [reflexivity | split; reflexivity]. }
    destruct (path_exists w directory); cbn [andb];
      [rewrite Path_is_dir_run, Hfault; destruct (path_is_dir w directory) |];
      unfold mret, M_ret;
      destruct (String.eqb_spec token "") as [-> |];
      destruct fields as [[| first rest] |]; reflexivity.
Qed.

(** Without a directory, or with one that can be looked for, a
    configuration is built and saved. *)
Lemma initialize_with_user_input_saves token directory fields (w : world) :
  directory = "" \/ path_fault w directory = false ->
  exists chosen_fields chosen_directory,
    let config :=
      {| asana := {| access_token := JStr token;
                     selected_project_id := JStr "";
                     selected_project_name := JStr "" |};
         export := {| default_date_range := JInt 30;
                      selected_fields := JList (map JStr chosen_fields);
                      output_directory := JStr chosen_directory |};
         ui := {| window_size := JStr "800x600";
                  last_export_path := JStr "" |} |} in
    initialize_with_user_input c config_manager token directory fields w
    = try_catch (save_config c config_manager (to_dict config);; mret config)
        (fun _ => raise RuntimeError) w
    /\ chosen_fields = validate_selected_fields (default [] fields)
    /\ chosen_directory =
         if negb (String.eqb directory "")
            && path_exists w directory && path_is_dir w directory
         then path_render w directory
         else joinpath (home w) "Documents".
Proof.
  intros Hpath.
  pose proof (initialize_with_user_input_builds token directory fields w) as H.
  assert (Hcheck : negb (String.eqb directory "") && path_fault w directory = false).
  { destruct Hpath as [-> | ->]; [reflexivity | apply andb_false_r]. }
  rewrite Hcheck in H.
  destruct H as (built & Hrun & chosen & place & -> & Hchosen & Hplace).
  exists chosen, place. cbv zeta. by rewrite Hrun.
Qed.

(** When the call does not raise [OSError] at once, the directory was
    empty or could be looked for. *)
Lemma initialize_with_user_input_checked token directory fields (w : world) r w1 :
  initialize_with_user_input c config_manager token directory fields w = (r, w1) ->
  (r, w1) = (Raise OSError, w)
  /\ directory <> "" /\ path_fault w directory = true
  \/ (directory = "" \/ path_fault w directory = false).
Proof.
  pose proof (initialize_with_user_input_builds token directory fields w) as H.
  destruct (String.eqb_spec directory "") as [-> | Hdir]; [by right; left |].
  destruct (path_fault w directory) eqn:Hfault; [| by right; right].
  cbn [negb andb] in H. rewrite H. intros <-. by left.
Qed.


(** The world after a successful [initialize_default_config]. *)
Lemma initialize_default_config_world w config w1 :
  initialize_default_config c config_manager w = (Ok config, w1) ->
  config = default_config_for w
  /\ config_file w1 = Some (Json (to_dict config))
  /\ home w1 = home w.
Proof.
  rewrite initialize_default_config_spec.
  destruct (path_fault w (joinpath (home w) "Documents")); [discriminate |].
  destruct (write_faults w) as [| [] later]; intros [= <- <-]; done.
Qed.

Lemma load_default_config w :
  config_file w = Some (Json (to_dict (default_config_for w))) ->
  load_config c config_manager w = (Ok (to_dict (default_config_for w)), w).
Proof.
  intros Hfile. apply load_config_plain; [exact Hfile | apply default_config_valid |].
  exists (JStr ""). split; reflexivity.
Qed.

Lemma is_first_run_spec w :
  is_first_run w = (Ok (negb (bool_decide (is_Some (config_file w)))), w).
Proof. reflexivity. Qed.

(** X9.  After [initialize_default_config] has returned, the run is no
    first run any more, and [load_config] gives the mapping of the
    configuration that was returned. *)
Theorem initialize_default_config_then_loads (w : world) config w1 :
  initialize_default_config c config_manager w = (Ok config, w1) ->
  is_first_run w1 = (Ok false, w1)
  /\ load_config c config_manager w1 = (Ok (to_dict config), w1).
Proof.
  intros Hinit.
  destruct (initialize_default_config_world _ _ _ Hinit) as (-> & Hfile & Hhome).
  split.
  - rewrite is_first_run_spec, Hfile. reflexivity.
  - unfold load_config, mbind, M_bind, get. rewrite Hfile.
    reflexivity.
Qed.

(** X10.  Once the default configuration is saved, [setup_application]
    ignores its arguments, writes nothing and returns that same
    configuration.  The home directory has a name: [str(Path.home())] is
    never empty. *)
Theorem setup_application_second_run (w : world) config w1
    (access_token output_directory : string)
    (selected_fields : option (list string)) :
  home w <> "" ->
  initialize_default_config c config_manager w = (Ok config, w1) ->
  setup_application c config_manager access_token output_directory
    selected_fields w1
  = (Ok config, w1).
Proof.
  intros Hhome Hinit.
  destruct (initialize_default_config_world _ _ _ Hinit) as (-> & Hfile & Hhome1).
  assert (Hload : load_config c config_manager w1
                  = (Ok (to_dict (default_config_for w)), w1)).
  { unfold load_config, mbind, M_bind, get. rewrite Hfile. reflexivity. }
  unfold setup_application, try_catch, setup_body.
  unfold mbind at 1, M_bind at 1.
  rewrite is_first_run_spec, Hfile.
  rewrite bool_decide_eq_true_2 by eauto. cbn [negb].
  unfold mbind at 1, M_bind at 1. rewrite Hload.
  unfold mbind, M_bind, get, lift.
  rewrite Hhome1, from_dict_of_to_dict.
  assert (Hplace : json_truthy (ConfigSchema.output_directory
                                  (export (default_config_for w)))
                   = true).
  { cbn. destruct (path_exists w (joinpath (home w) "Documents")).
    - apply negb_true_iff, String.eqb_neq. unfold joinpath.
      destruct (String.eqb (home w) "/"); [discriminate |].
      destruct (home w); discriminate.
    - by apply negb_true_iff, String.eqb_neq. }
  rewrite Hplace. reflexivity.
Qed.

(** X11.  What [initialize_with_user_input] returns, when it returns: the
    token as entered; a selection that went through
    [validate_selected_fields], so with "name" and "created_at" and with
    catalog fields only; and as output directory the entered one when it
    is an existing directory, the Documents directory (existing or not)
    in every other case. *)
Theorem initialize_with_user_input_result
    (token directory : string) (fields : option (list string))
    (w : world) config w1 :
  initialize_with_user_input c config_manager token directory fields w
  = (Ok config, w1) ->
  access_token (asana config) = JStr token
  /\ (exists chosen,
        selected_fields (export config) = JList (map JStr chosen)
        /\ chosen = validate_selected_fields (default [] fields)
        /\ "name" ∈ chosen /\ "created_at" ∈ chosen
        /\ forall k, k ∈ chosen -> in_catalog k = true)
  /\ output_directory (export config)
     = JStr (if negb (String.eqb directory "")
                && path_exists w directory && path_is_dir w directory
             then path_render w directory
             else joinpath (home w) "Documents").
Proof.
  intros Hrun.
  destruct (initialize_with_user_input_checked _ _ _ _ _ _ Hrun)
    as [[[=] _] | Hpath].
  revert Hrun.
  destruct (initialize_with_user_input_saves token directory fields w Hpath)
    as (chosen & place & -> & Hchosen & Hplace).
  clear Hpath.
  unfold try_catch, mbind, M_bind, mret, M_ret, raise.
  destruct (save_config _ _ _ w) as [[[] |] w'']; intros [= <- <-].
  cbn [access_token asana selected_fields export output_directory].
  split; [reflexivity |]. split; [| by rewrite Hplace].
  exists chosen. split; [reflexivity |]. split; [exact Hchosen |].
  subst chosen.
  destruct (default [] fields) as [| first rest] eqn:E.
  - vm_compute validate_selected_fields.
    repeat split; [set_solver | set_solver |].
    intros k Hk. apply (validate_selected_fields_in_catalog [] k Hk).
  - rewrite validate_selected_fields_nonempty by discriminate.
    split; [apply required_present; set_solver |].
    split; [apply required_present; set_solver |].
    intros k Hk.
    apply (validate_selected_fields_in_catalog (first :: rest) k).
    by rewrite validate_selected_fields_nonempty by discriminate.
Qed.


Hypothesis laws : crypto_laws c.


End FirstRun.

Lemma initialize_default_config_then_loads_witness :
  exists config w1,
    ConfigInitializer.initialize_default_config ConfigManager.example_crypto
      {| ConfigManager.encryption_key := "k" |} ConfigManager.example_world
    = (Ok config, w1)
    /\ ConfigInitializer.is_first_run w1 = (Ok false, w1).
Proof.
  pose proof (initialize_default_config_spec ConfigManager.example_crypto
                {| ConfigManager.encryption_key := "k" |}
                ConfigManager.example_world) as Hrun.
  cbn [ConfigManager.write_faults ConfigManager.example_world tl] in Hrun.
  eexists _, _. split; [exact Hrun |].
  exact (proj1 (initialize_default_config_then_loads _ _ _ _ _ Hrun)).
Defined.

Lemma setup_application_second_run_witness :
  exists config w1,
    ConfigInitializer.initialize_default_config ConfigManager.example_crypto
      {| ConfigManager.encryption_key := "k" |} ConfigManager.example_world
    = (Ok config, w1)
    /\ ConfigInitializer.setup_application ConfigManager.example_crypto
         {| ConfigManager.encryption_key := "k" |} "token" "/tmp" (Some ["notes"]) w1
       = (Ok config, w1).
Proof.
  pose proof (initialize_default_config_spec ConfigManager.example_crypto
                {| ConfigManager.encryption_key := "k" |}
                ConfigManager.example_world) as Hrun.
  cbn [ConfigManager.write_faults ConfigManager.example_world tl] in Hrun.
  eexists _, _. split; [exact Hrun |].
  refine (setup_application_second_run _ _ _ _ _ "token" "/tmp" (Some ["notes"])
            _ Hrun).
  discriminate.
Defined.

Lemma initialize_with_user_input_result_witness :
  exists config w1,
    ConfigInitializer.initialize_with_user_input ConfigManager.example_crypto
      {| ConfigManager.encryption_key := "k" |} "token" "/data" (Some ["notes"])
      ConfigManager.example_world
    = (Ok config, w1)
    /\ ConfigSchema.access_token (ConfigSchema.asana config) = JStr "token"
    /\ ConfigSchema.output_directory (ConfigSchema.export config) = JStr "/data".
Proof.
  destruct (ConfigInitializer.initialize_with_user_input
              ConfigManager.example_crypto
              {| ConfigManager.encryption_key := "k" |} "token" "/data"
              (Some ["notes"]) ConfigManager.example_world)
    as [[config | e] w1] eqn:Hrun; [| vm_compute in Hrun; discriminate].
  exists config, w1. split; [reflexivity |].
  destruct (initialize_with_user_input_result _ _ _ _ _ _ _ _ Hrun)
    as (Htoken & _ & Hdirectory).
  split; [exact Htoken | exact Hdirectory].
Defined.



(** ** The retry decorator ([error_handler.py]) and [get_tasks]
    ([task_manager.py]) *)

Section RetryPolicy.
Import ErrorHandler.

Context {A : Type}.
Variable float_sleep_error : float -> option exn.
Variable answers : nat -> result A.
Variable retry_on : option (list (exn -> bool)).

(** The loop from the attempt [a] on, when the calls [a], ..., [j - 1]
    fail with errors that are retried and the call [j] decides. *)
Lemma retry_loop_run (n j : nat) (backoff : float) :
  (j <= n)%nat ->
  (forall k, (k < j)%nat -> is_retried retry_on (answers k) = true) ->
  (j = n \/ is_retried retry_on (answers j) = false) ->
  forall (k a : nat) (d : float) (naps : list float) (last : option exn),
    (a + k = j)%nat ->
    Forall (fun nap => float_sleep_error nap = None) (delays k d backoff) ->
    retry_loop (sleep float_sleep_error) (Datatypes.S (n - a)) (Z.of_nat a)
      (Z.of_nat n) d backoff retry_on (call answers) last
      {| calls := a; slept := naps |}
    = (answers j, {| calls := Datatypes.S j; slept := naps ++ delays k d backoff |}).
Proof.
  intros Hjn Hbefore Hlast.
  induction k as [| k IH]; intros a d naps last Ha Hnaps.
  - assert (a = j) as -> by lia.
    cbn [retry_loop delays]. rewrite app_nil_r.
    unfold try_catch, call at 1. cbn [calls slept].
    destruct (answers j) as [value | e] eqn:Hanswer; [reflexivity |].
    destruct Hlast as [-> | Hlast].
    + rewrite (proj2 (Z.ltb_ge _ _)) by lia. reflexivity.
    + cbn [is_retried] in Hlast. rewrite Hlast, andb_false_r. reflexivity.
  - assert (Hak : (a < j)%nat) by lia.
    specialize (Hbefore a Hak).
    cbn [retry_loop delays].
    unfold try_catch, call at 1. cbn [calls slept].
    destruct (answers a) as [value | e]; [discriminate |].
    cbn [is_retried] in Hbefore. rewrite Hbefore.
    rewrite (proj2 (Z.ltb_lt _ _)) by lia. cbn [andb].
    apply Forall_cons in Hnaps as [Hnap Hnaps].
    unfold mbind, M_bind, sleep. rewrite Hnap.
    unfold modify. cbn [calls slept].
    replace (n - a)%nat with (Datatypes.S (n - Datatypes.S a)) by lia.
    replace (Z.of_nat a + 1) with (Z.of_nat (Datatypes.S a)) by lia.
    rewrite (IH (Datatypes.S a) _ _ _ ltac:(lia) Hnaps).
    by rewrite <- app_assoc.
Qed.

(** X14.  The retry decorator, run on a function whose n-th call answers
    [answers n]: when the first [j] calls fail with errors that are
    retried, and the call [j] returns, or fails with an error that is not
    retried, or is the last one allowed ([j = max_retries]), the wrapper
    gives the answer of the call [j] after [j + 1] calls and [j] sleeps
    of [delay], [delay * backoff], ... *)
Theorem retry_on_error_run (n j : nat) (delay backoff : float) :
  (j <= n)%nat ->
  (forall k, (k < j)%nat -> is_retried retry_on (answers k) = true) ->
  (j = n \/ is_retried retry_on (answers j) = false) ->
  Forall (fun nap => float_sleep_error nap = None) (delays j delay backoff) ->
  retry_on_error (sleep float_sleep_error) (Z.of_nat n) delay backoff retry_on
    (call answers) {| calls := 0; slept := [] |}
  = (answers j, {| calls := Datatypes.S j; slept := delays j delay backoff |}).
Proof.
  intros Hjn Hbefore Hlast Hnaps. unfold retry_on_error.
  replace (Z.to_nat (Z.of_nat n + 1)) with (Datatypes.S (n - 0)) by lia.
  exact (retry_loop_run n j backoff Hjn Hbefore Hlast j 0%nat delay [] None
           eq_refl Hnaps).
Qed.

End RetryPolicy.

Lemma retry_on_error_run_witness :
  ErrorHandler.retry_on_error (ErrorHandler.sleep (fun _ => None)) 2 1 2 None
    (ErrorHandler.call
       (fun n => if (n <? 2)%nat then Raise NetworkError else Ok "done"))
    {| ErrorHandler.calls := 0; ErrorHandler.slept := [] |}
  = (Ok "done", {| ErrorHandler.calls := 3; ErrorHandler.slept := [1; 2]%float |}).
Proof.
  refine (retry_on_error_run (fun _ => None)
            (fun n => if (n <? 2)%nat then Raise NetworkError else Ok "done")
            None 2 2 1 2 _ _ _ _).
  - lia.
  - intros [| [| k]] Hk; [reflexivity | reflexivity | lia].
  - by left.
  - repeat constructor.
Defined.

Section RetryEdges.
Import ErrorHandler.

Context {S A : Type}.
Variable time_sleep : float -> M S unit.

(** X15.  The edges of the retry decorator.  With a negative
    [max_retries] the function is never called and the wrapper raises
    [TypeError] (the [raise] of a [last_error] that is still [None]); a
    result is returned as it is; an error that is not retried is raised
    after one call, without a sleep; and with [max_retries = 0] nothing is
    ever retried. *)
Theorem retry_on_error_edges (delay backoff : float)
    (retry_on : option (list (exn -> bool))) (func : M S A) (s : S) :
  (forall max_retries,
      max_retries < 0 ->
      retry_on_error time_sleep max_retries delay backoff retry_on func s
      = (Raise TypeError, s))
  /\ (forall max_retries a s',
        0 <= max_retries ->
        func s = (Ok a, s') ->
        retry_on_error time_sleep max_retries delay backoff retry_on func s
        = (Ok a, s'))
  /\ (forall max_retries e s',
        0 <= max_retries ->
        func s = (Raise e, s') ->
        retryable retry_on e = false ->
        retry_on_error time_sleep max_retries delay backoff retry_on func s
        = (Raise e, s'))
  /\ retry_on_error time_sleep 0 delay backoff retry_on func s = func s.
Proof.
  unfold retry_on_error. repeat split.
  - intros m Hm. replace (Z.to_nat (m + 1)) with 0%nat by lia. reflexivity.
  - intros m a s' Hm Hrun.
    replace (Z.to_nat (m + 1)) with (Datatypes.S (Z.to_nat m)) by lia.
    cbn [retry_loop]. unfold try_catch. by rewrite Hrun.
  - intros m e s' Hm Hrun Hnot.
    replace (Z.to_nat (m + 1)) with (Datatypes.S (Z.to_nat m)) by lia.
    cbn [retry_loop]. unfold try_catch. rewrite Hrun, Hnot, andb_false_r.
    reflexivity.
  - change (Z.to_nat (0 + 1)) with 1%nat. cbn [retry_loop].
    rewrite Z.ltb_irrefl. cbn [andb].
    unfold try_catch. destruct (func s) as [[a | e] s']; reflexivity.
Qed.

End RetryEdges.

(** X16.  What [should_retry] accepts: a [NetworkError], and an [APIError]
    whose status code is 429 or a 5xx.  The other classes are not
    retried, among them [AuthenticationError] and the rate-limit error of
    the client; and every error that is retried has retry settings. *)
Theorem should_retry_spec (error : exn) :
  (ErrorHandler.should_retry error = true <->
   error = NetworkError
   \/ exists code,
       error = APIError (Some code) /\ (code = 429 \/ 500 <= code < 600))
  /\ (ErrorHandler.should_retry error = true ->
      is_Some (ErrorHandler.get_retry_settings error)).
Proof.
  split; [split |].
  - destruct error as [| | | | | | | | | | | [code |] | | | | | | | | | |];
      cbn [ErrorHandler.should_retry]; try discriminate; [| by left].
    intros H. right. exists code. split; [reflexivity |].
    apply orb_true_iff in H as [H | H]; [left; lia |].
    right. apply andb_true_iff in H as [_ H]. lia.
  - intros [-> | (code & -> & [-> | Hcode])]; [reflexivity | reflexivity |].
    cbn [ErrorHandler.should_retry].
    apply orb_true_iff. right.
    apply andb_true_iff. split; [apply negb_true_iff | ]; lia.
  - destruct error as [| | | | | | | | | | | [code |] | | | | | | | | | |];
      cbn [ErrorHandler.should_retry]; try discriminate; intros _; cbn; eauto.
Qed.

Section GetTasks.
Import Models TaskManager.

Context {S : Type}.
Variable isdigit : string -> bool.
Variable today : Z.
Variable get_project_tasks : value -> value -> value -> M S (list Task).
Variable time_sleep : float -> M S unit.

Lemma validate_project_id_raises project_id e :
  validate_project_id isdigit project_id = Raise e ->
  e = ValidationError "project_id".
Proof.
  unfold validate_project_id.
  destruct (truthy project_id); cbn [negb]; [| congruence].
  destruct project_id; try congruence.
  destruct (isdigit s); congruence.
Qed.

Lemma _prepare_date_range_raises start_date end_date e :
  _prepare_date_range today start_date end_date = Raise e ->
  e = OverflowError \/ exists why, e = DateValidationError why.
Proof.
  unfold _prepare_date_range.
  destruct (is_None start_date).
  - unfold minus_days.
    destruct (_ || _); cbn [mbind result_bind]; [intros [= <-]; by left |].
    destruct (validate_date_range _ _ _) as [b | e'] eqn:Hvalid;
      cbn [mbind result_bind]; [discriminate |].
    intros [= <-]. right. exact (validate_date_range_raises _ _ _ _ Hvalid).
  - cbn [mbind result_bind].
    destruct (validate_date_range _ _ _) as [b | e'] eqn:Hvalid;
      cbn [mbind result_bind]; [discriminate |].
    intros [= <-]. right. exact (validate_date_range_raises _ _ _ _ Hvalid).
Qed.

(** No exception leaves the body of [get_tasks] as an [AsanaAPIError]. *)
Lemma get_tasks_body_raises project_id start_date end_date s e s' :
  get_tasks_body isdigit today get_project_tasks project_id start_date end_date s
  = (Raise e, s') ->
  e = ValidationError "project_id" \/ e = OverflowError
  \/ (exists why, e = DateValidationError why) \/ e = TaskManagerError.
Proof.
  unfold get_tasks_body, mbind, M_bind, lift.
  destruct (validate_project_id isdigit project_id) as [b | e1] eqn:Hid.
  2:{ intros [= <- <-]. left. exact (validate_project_id_raises _ _ Hid). }
  destruct (_prepare_date_range today start_date end_date) as [dates | e1] eqn:Hdates.
  2:{ intros [= <- <-]. right.
      destruct (_prepare_date_range_raises _ _ _ Hdates) as [-> | Hwhy]; eauto. }
  unfold try_catch, raise.
  destruct (get_project_tasks _ _ _ s) as [[tasks | e1] s1]; [discriminate |].
  intros [= <- <-]. by repeat right.
Qed.

(** X17.  [get_tasks] never retries.  Its decorator retries on
    [AsanaAPIError], and the body turns every exception of the API call
    into a [TaskManagerError]: the decorated method is the body run once,
    without any sleep, in every world. *)
Theorem get_tasks_never_retries (project_id start_date end_date : value) (s : S) :
  get_tasks isdigit today get_project_tasks time_sleep project_id start_date
    end_date s
  = get_tasks_body isdigit today get_project_tasks project_id start_date
      end_date s.
Proof.
  unfold get_tasks, ErrorHandler.retry_on_error.
  change (Z.to_nat (2 + 1)) with 3%nat. cbn [ErrorHandler.retry_loop].
  unfold try_catch at 1.
  destruct (get_tasks_body _ _ _ _ _ _ s) as [[tasks | e] s'] eqn:Hbody;
    [reflexivity |].
  apply get_tasks_body_raises in Hbody
    as [-> | [-> | [[why ->] | ->]]]; reflexivity.
Qed.

(** X18.  What [get_tasks] does.  A project id that is not a non-empty
    string of digits is refused with a [ValidationError] for the field
    "project_id" before the dates are looked at; a date range that is
    refused raises before the API is called; otherwise the API is called
    once with the prepared dates, its tasks are returned as they are, and
    whatever it raises comes out as a [TaskManagerError]. *)
Theorem get_tasks_outcome (project_id start_date end_date : value) (s : S) :
  let run := get_tasks isdigit today get_project_tasks time_sleep project_id
               start_date end_date s in
  ((forall text, project_id = VStr text -> text = "" \/ isdigit text = false) ->
   run = (Raise (ValidationError "project_id"), s))
  /\ (forall text,
        project_id = VStr text -> text <> "" -> isdigit text = true ->
        match _prepare_date_range today start_date end_date with
        | Raise e => run = (Raise e, s)
        | Ok (first, last) =>
            match get_project_tasks project_id first last s with
            | (Ok tasks, s') => run = (Ok tasks, s')
            | (Raise _, s') => run = (Raise TaskManagerError, s')
            end
        end).
Proof.
  cbv zeta. rewrite get_tasks_never_retries.
  unfold get_tasks_body, mbind, M_bind, lift. split.
  - intros Hbad.
    assert (Hid : validate_project_id isdigit project_id
                  = Raise (ValidationError "project_id")).
    { unfold validate_project_id.
      destruct project_id; try reflexivity;
        try (destruct (truthy _); reflexivity).
      destruct (Hbad _ eq_refl) as [-> | Hdigits]; [reflexivity |].
      rewrite Hdigits. by destruct (truthy _). }
    by rewrite Hid.
  - intros text -> Htext Hdigits.
    unfold validate_project_id. cbn [truthy].
    apply String.eqb_neq in Htext. rewrite Htext, Hdigits. cbn [negb].
    destruct (_prepare_date_range today start_date end_date) as [[first last] | e];
      [| reflexivity].
    unfold try_catch, raise. cbn [fst snd].
    by destruct (get_project_tasks _ _ _ s) as [[tasks | e] s'].
Qed.

(** X19.  The defaults of [_prepare_date_range], for a [today] at least a
    year after [date.min]: no dates give the last 30 days; a missing end
    is today; dates that pass the validation come back as they are; and a
    missing start with an end more than 30 days back is refused, the
    default start being after that end. *)
Theorem prepare_date_range_defaults :
  date_min + 365 <= today <= date_max ->
  _prepare_date_range today VNone VNone
  = Ok (VDate (today - 30), VDate today)
  /\ (forall first,
        today - 365 <= first <= today ->
        _prepare_date_range today (VDate first) VNone
        = Ok (VDate first, VDate today))
  /\ (forall start_date end_date,
        validate_date_range today start_date end_date = Ok true ->
        _prepare_date_range today start_date end_date
        = Ok (start_date, end_date))
  /\ (forall last,
        last < today - 30 ->
        _prepare_date_range today VNone (VDate last)
        = Raise (DateValidationError StartAfterEnd)).
Proof.
  intros Htoday.
  assert (Hstart : minus_days today DEFAULT_DATE_RANGE_DAYS = Ok (VDate (today - 30))).
  { unfold minus_days, DEFAULT_DATE_RANGE_DAYS, date_min, date_max in *.
    rewrite (proj2 (Z.ltb_ge _ _)), (proj2 (Z.ltb_ge _ _)) by lia. reflexivity. }
  repeat split.
  - unfold _prepare_date_range. cbn [is_None]. rewrite Hstart.
    cbn [mbind result_bind].
    rewrite (validate_date_range_dates today _ _ Htoday).
    repeat match goal with
           | |- context [?a <? ?b] => destruct (Z.ltb_spec a b); try lia
           end.
    reflexivity.
  - intros first Hfirst. unfold _prepare_date_range. cbn [is_None mbind result_bind].
    rewrite (validate_date_range_dates today _ _ Htoday).
    repeat match goal with
           | |- context [?a <? ?b] => destruct (Z.ltb_spec a b); try lia
           end.
    reflexivity.
  - intros start_date end_date Hvalid.
    destruct (validate_date_range_ok_dates _ _ _ _ Hvalid) as (first & last & -> & ->).
    unfold _prepare_date_range. cbn [is_None mbind result_bind].
    by rewrite Hvalid.
  - intros last Hlast. unfold _prepare_date_range. cbn [is_None]. rewrite Hstart.
    cbn [mbind result_bind].
    rewrite (validate_date_range_dates today _ _ Htoday).
    destruct (Z.ltb_spec last (today - 30)); [reflexivity | lia].
Qed.

End GetTasks.

Lemma prepare_date_range_defaults_witness :
  TaskManager._prepare_date_range 738886 Models.VNone Models.VNone
  = Ok (Models.VDate 738856, Models.VDate 738886).
Proof.
  refine (proj1 (prepare_date_range_defaults 738886 _)).
  unfold Models.date_min, Models.date_max. lia.
Defined.

(** ** The request loop ([asana_client.py]) *)

Section RequestLoop.
Import AsanaClient.

Context {Body : Type}.
Variable server : nat -> outcome Body.
Variable parse_float : string -> option float.
Variable float_sleep_error : float -> option exn.

Lemma sleeps_app s events :
  sleeps {| calls := calls s; retry_count := retry_count s;
            log := log s ++ events |}
  = sleeps s ++ omap (fun e => match e with Slept d => Some d | _ => None end) events.
Proof. unfold sleeps. cbn [log]. apply omap_app. Qed.

Ltac run_attempt H :=
  unfold attempt_once, try_catch, try_body, handlers, session_request,
    log_api_metrics, count_retry, _handle_rate_limit, _handle_error_response,
    sleep, emit, modify, get, raise, mbind, M_bind, mret, M_ret,
    MAX_RETRIES, RETRY_DELAY in H;
  repeat (cbn -[Z.pow Z.leb Z.ltb Z.eqb Z.sub Z.mul] in H;
          match type of H with
          | context [match ?x with _ => _ end] =>
              lazymatch x with
              | context [match _ with _ => _ end] => fail
              | _ => destruct x eqn:?
              end
          end).

(** One attempt makes one request and sleeps at most once; when it
    sleeps, the loop goes on; and the third attempt never asks for
    another one. *)
Lemma attempt_once_effect attempt s r s' :
  attempt_once server parse_float float_sleep_error attempt s = (r, s') ->
  calls s' = Datatypes.S (calls s)
  /\ (sleeps s' = sleeps s
      \/ exists nap, sleeps s' = sleeps s ++ [nap] /\ r = Ok None)
  /\ (r = Ok None -> attempt <> 2).
Proof.
  intros H. run_attempt H.
  all: injection H as <- <-.
  all: split; [reflexivity |].
  all: unfold sleeps; cbn [log]; rewrite <- ?app_assoc, ?omap_app; cbn [omap app].
  all: rewrite ?app_nil_r.
  all: split; [first [by left | right; eauto] | try discriminate; intros _; lia].
Qed.

(** The loop, one attempt at a time. *)
Lemma attempts_step remaining attempt s :
  attempts server parse_float float_sleep_error (Datatypes.S remaining) attempt s
  = match attempt_once server parse_float float_sleep_error attempt s with
    | (Ok (Some body), s1) => (Ok body, s1)
    | (Ok None, s1) =>
        attempts server parse_float float_sleep_error remaining (attempt + 1) s1
    | (Raise e, s1) => (Raise e, s1)
    end.
Proof.
  cbn [attempts]. unfold mbind, M_bind.
  by destruct (attempt_once _ _ _ attempt s) as [[[body |] | e] s1].
Qed.

(** X20.  [_make_request] makes at least one and at most three requests
    and sleeps at most twice, whatever the server answers; and its
    outcome is always the outcome of one of the three attempts: the
    [raise] that follows the loop is never reached. *)
Theorem make_request_bounded (s : state) r s' :
  _make_request server parse_float float_sleep_error s = (r, s') ->
  (calls s < calls s' <= calls s + 3)%nat
  /\ (exists naps, sleeps s' = sleeps s ++ naps /\ (length naps <= 2)%nat)
  /\ exists attempt s0,
      0 <= attempt <= 2
      /\ attempt_once server parse_float float_sleep_error attempt s0
         = (match r with Ok body => Ok (Some body) | Raise e => Raise e end, s').
Proof.
  unfold _make_request, MAX_RETRIES. change (Z.to_nat 3) with 3%nat.
  rewrite attempts_step.
  destruct (attempt_once _ _ _ 0 s) as [r0 s1] eqn:H0.
  destruct (attempt_once_effect _ _ _ _ H0) as (Hc0 & Hn0 & Hl0).
  assert (Hn0' : exists naps, sleeps s1 = sleeps s ++ naps /\ (length naps <= 1)%nat).
  { destruct Hn0 as [-> | (nap & -> & _)];
      [exists []; split; [by rewrite app_nil_r | cbn; lia]
      | exists [nap]; split; [done | cbn; lia]]. }
  destruct Hn0' as (naps0 & Hnaps0 & Hlen0).
  destruct r0 as [[body |] | e].
  1,3: intros [= <- <-]; split; [lia |];
       split; [exists naps0; split; [done | lia] |];
       exists 0, s; split; [lia | done].
  rewrite attempts_step. change (0 + 1) with 1.
  destruct (attempt_once _ _ _ 1 s1) as [r1 s2] eqn:H1.
  destruct (attempt_once_effect _ _ _ _ H1) as (Hc1 & Hn1 & Hl1).
  assert (Hn1' : exists naps, sleeps s2 = sleeps s1 ++ naps /\ (length naps <= 1)%nat).
  { destruct Hn1 as [-> | (nap & -> & _)];
      [exists []; split; [by rewrite app_nil_r | cbn; lia]
      | exists [nap]; split; [done | cbn; lia]]. }
  destruct Hn1' as (naps1 & Hnaps1 & Hlen1).
  assert (Hboth : sleeps s2 = sleeps s ++ (naps0 ++ naps1)
                  /\ (length (naps0 ++ naps1) <= 2)%nat).
  { rewrite Hnaps1, Hnaps0, <- app_assoc, length_app. split; [done | lia]. }
  destruct r1 as [[body |] | e].
  1,3: intros [= <- <-]; split; [lia |];
       split; [by exists (naps0 ++ naps1) |];
       exists 1, s1; split; [lia | done].
  rewrite attempts_step. change (1 + 1) with 2.
  destruct (attempt_once _ _ _ 2 s2) as [r2 s3] eqn:H2.
  destruct (attempt_once_effect _ _ _ _ H2) as (Hc2 & Hn2 & Hl2).
  assert (Hn2' : sleeps s3 = sleeps s2).
  { destruct Hn2 as [-> | (nap & _ & ->)]; [done | by destruct Hl2]. }
  destruct r2 as [[body |] | e]; [| by destruct Hl2 |].
  all: intros [= <- <-]; split; [lia |];
       split; [exists (naps0 ++ naps1); by rewrite Hn2' |];
       exists 2, s2; split; [lia | done].
Qed.

Ltac unfold_attempt :=
  unfold attempt_once, try_catch, try_body, handlers, session_request,
    log_api_metrics, count_retry, _handle_rate_limit, _handle_error_response,
    sleep, emit, modify, get, raise, mbind, M_bind, mret, M_ret,
    MAX_RETRIES, RETRY_DELAY.

(** The state after a request that was answered with [status], or after
    one that failed ([None]), and a sleep. *)
Lemma attempt_once_answer attempt s response :
  server (calls s) = Responds response ->
  status_code response <> 429 ->
  attempt_once server parse_float float_sleep_error attempt s
  = (if ok response then
       match json response with
       | Some body => Ok (Some body)
       | None => Raise AsanaAPIError
       end
     else if (status_code response =? 401) || (status_code response =? 403)
          then Raise AuthenticationError
          else Raise (APIError (Some (status_code response))),
     {| calls := Datatypes.S (calls s); retry_count := retry_count s;
        log := log s ++ [Requested;
                         Metrics (status_code response) (retry_count s)] |}).
Proof.
  intros Hserver Hstatus. unfold_attempt. rewrite Hserver.
  cbn -[Z.eqb]. rewrite (proj2 (Z.eqb_neq _ _) Hstatus).
  destruct (ok response); [destruct (json response) |];
    cbn; rewrite <- ?app_assoc; try reflexivity.
  destruct ((status_code response =? 401) || (status_code response =? 403));
    cbn; rewrite <- ?app_assoc; reflexivity.
Qed.

Lemma attempt_once_network attempt s e :
  server (calls s) = Fails e ->
  e = Timeout \/ e = ConnectionError ->
  attempt_once server parse_float float_sleep_error attempt s
  = if attempt =? 2 then
      (Raise NetworkError,
       {| calls := Datatypes.S (calls s); retry_count := retry_count s + 1;
          log := log s ++ [Requested; Metrics 0 (retry_count s + 1)] |})
    else
      (Ok None,
       {| calls := Datatypes.S (calls s); retry_count := retry_count s + 1;
          log := log s ++ [Requested; Slept (Int 1)] |}).
Proof.
  intros Hserver He. unfold_attempt. rewrite Hserver.
  destruct He as [-> | ->]; cbn -[Z.eqb];
    change (3 - 1) with 2; destruct (attempt =? 2);
    cbn; rewrite <- ?app_assoc; reflexivity.
Qed.

(** X21.  Only a 429, a timeout and a connection error are tried again.
    Any other answer to the first request decides: a readable body is
    returned; a body that is not JSON is an [AsanaAPIError]; the statuses
    401 and 403 are an [AuthenticationError] and every other error
    status, the 5xx included, an [APIError] with that status; another
    failure of the request is a [NetworkError].  One request has been
    made and there was no sleep. *)
Theorem make_request_first_answer (s : state) :
  (forall response,
      server (calls s) = Responds response ->
      status_code response <> 429 ->
      _make_request server parse_float float_sleep_error s
      = (if ok response then
           match json response with
           | Some body => Ok body
           | None => Raise AsanaAPIError
           end
         else if (status_code response =? 401) || (status_code response =? 403)
              then Raise AuthenticationError
              else Raise (APIError (Some (status_code response))),
         {| calls := Datatypes.S (calls s); retry_count := retry_count s;
            log := log s ++ [Requested;
                             Metrics (status_code response) (retry_count s)] |}))
  /\ (server (calls s) = Fails RequestException ->
      _make_request server parse_float float_sleep_error s
      = (Raise NetworkError,
         {| calls := Datatypes.S (calls s); retry_count := retry_count s;
            log := log s ++ [Requested; Metrics 0 (retry_count s)] |})).
Proof.
  unfold _make_request, MAX_RETRIES. change (Z.to_nat 3) with 3%nat.
  split.
  - intros response Hserver Hstatus.
    rewrite attempts_step, (attempt_once_answer _ _ _ Hserver Hstatus).
    destruct (ok response); [by destruct (json response) |].
    by destruct ((status_code response =? 401) || (status_code response =? 403)).
  - intros Hserver. rewrite attempts_step.
    unfold_attempt. rewrite Hserver. cbn. by rewrite <- ?app_assoc.
Qed.

(** X22.  A network that fails every request with a timeout or a
    connection error: three requests, a sleep of [RETRY_DELAY] after the
    first and after the second, then a [NetworkError]. *)
Theorem make_request_network_failure (s : state) :
  (forall n, server n = Fails Timeout \/ server n = Fails ConnectionError) ->
  exists final,
    _make_request server parse_float float_sleep_error s
    = (Raise NetworkError, final)
    /\ calls final = (calls s + 3)%nat
    /\ retry_count final = retry_count s + 3
    /\ sleeps final = sleeps s ++ [Int RETRY_DELAY; Int RETRY_DELAY].
Proof.
  intros Hserver.
  assert (Hnet : forall n, exists e,
               server n = Fails e /\ (e = Timeout \/ e = ConnectionError)).
  { intros n. destruct (Hserver n) as [H | H]; eauto. }
  unfold _make_request, MAX_RETRIES. change (Z.to_nat 3) with 3%nat.
  destruct (Hnet (calls s)) as (e0 & H0 & He0).
  rewrite attempts_step, (attempt_once_network 0 s e0 H0 He0).
  cbn [Z.eqb]. set (s1 := Build_state _ _ _).
  destruct (Hnet (calls s1)) as (e1 & H1 & He1).
  rewrite attempts_step, (attempt_once_network _ s1 e1 H1 He1).
  change (0 + 1 =? 2) with false. cbn iota. set (s2 := Build_state _ _ _).
  destruct (Hnet (calls s2)) as (e2 & H2 & He2).
  rewrite attempts_step, (attempt_once_network _ s2 e2 H2 He2).
  change (0 + 1 + 1 =? 2) with true. cbn iota.
  eexists. split; [reflexivity |].
  subst s1 s2. cbn [calls retry_count]. repeat split; [lia | lia |].
  unfold sleeps. cbn [log]. rewrite <- !app_assoc, omap_app. reflexivity.
Qed.

(** X23.  Recovery: when the first [j] requests, two at most, fail with
    a timeout or a connection error and the next one is answered with a
    readable body, [_make_request] returns that body after [j + 1]
    requests and [j] sleeps of [RETRY_DELAY]. *)
Theorem make_request_recovers (s : state) (j : nat) response body :
  (j <= 2)%nat ->
  (forall k, (k < j)%nat ->
             server (calls s + k)%nat = Fails Timeout
             \/ server (calls s + k)%nat = Fails ConnectionError) ->
  server (calls s + j)%nat = Responds response ->
  status_code response <> 429 ->
  ok response = true ->
  json response = Some body ->
  exists final,
    _make_request server parse_float float_sleep_error s = (Ok body, final)
    /\ calls final = (calls s + j + 1)%nat
    /\ sleeps final = sleeps s ++ repeat (Int RETRY_DELAY) j.
Proof.
  intros Hj Hbefore Hserver Hstatus Hok Hjson.
  assert (Hnet : forall k, (k < j)%nat -> exists e,
               server (calls s + k)%nat = Fails e
               /\ (e = Timeout \/ e = ConnectionError)).
  { intros k Hk. destruct (Hbefore k Hk) as [H | H]; eauto. }
  unfold _make_request, MAX_RETRIES. change (Z.to_nat 3) with 3%nat.
  destruct j as [| [| [| j]]]; [| | | lia].
  - rewrite Nat.add_0_r in Hserver.
    rewrite attempts_step, (attempt_once_answer _ _ _ Hserver Hstatus), Hok, Hjson.
    eexists. split; [reflexivity |]. cbn [calls repeat]. split; [lia |].
    unfold sleeps. cbn [log]. rewrite omap_app. reflexivity.
  - destruct (Hnet 0%nat ltac:(lia)) as (e0 & H0 & He0).
    rewrite Nat.add_0_r in H0.
    rewrite attempts_step, (attempt_once_network 0 s e0 H0 He0).
    cbn [Z.eqb]. set (s1 := Build_state _ _ _).
    assert (H1 : server (calls s1) = Responds response)
      by (subst s1; cbn [calls]; by rewrite <- Nat.add_1_r).
    rewrite attempts_step, (attempt_once_answer _ _ _ H1 Hstatus), Hok, Hjson.
    eexists. split; [reflexivity |]. subst s1. cbn [calls repeat]. split; [lia |].
    unfold sleeps. cbn [log]. rewrite <- !app_assoc, omap_app. reflexivity.
  - destruct (Hnet 0%nat ltac:(lia)) as (e0 & H0 & He0).
    rewrite Nat.add_0_r in H0.
    rewrite attempts_step, (attempt_once_network 0 s e0 H0 He0).
    cbn [Z.eqb]. set (s1 := Build_state _ _ _).
    destruct (Hnet 1%nat ltac:(lia)) as (e1 & H1 & He1).
    assert (H1' : server (calls s1) = Fails e1)
      by (subst s1; cbn [calls]; by rewrite <- Nat.add_1_r).
    rewrite attempts_step, (attempt_once_network _ s1 e1 H1' He1).
    change (0 + 1 =? 2) with false. cbn iota. set (s2 := Build_state _ _ _).
    assert (H2 : server (calls s2) = Responds response).
    { subst s2 s1. cbn [calls].
      by replace (Datatypes.S (Datatypes.S (calls s))) with (calls s + 2)%nat by lia. }
    rewrite attempts_step, (attempt_once_answer _ _ _ H2 Hstatus), Hok, Hjson.
    eexists. split; [reflexivity |]. subst s2 s1. cbn [calls repeat]. split; [lia |].
    unfold sleeps. cbn [log]. rewrite <- !app_assoc, omap_app. reflexivity.
Qed.

(** X24.  The wait after a 429 that carries a [Retry-After] header,
    before the last attempt.  A value that [float] parses is slept as it
    is; a value it does not parse (an HTTP date) falls back to
    [2 ^ attempt] seconds.  But a parsed value that [time.sleep] refuses
    with a [ValueError] or an [OverflowError] (a negative number, a NaN,
    an infinity) ends the request with an [AsanaAPIError]: there is no
    sleep and no further attempt. *)
Theorem rate_limit_retry_after (s : state) (attempt : Z) response text :
  0 <= attempt < 2 ->
  server (calls s) = Responds response ->
  status_code response = 429 ->
  retry_after response = Some text ->
  text <> "" ->
  let after events :=
    {| calls := Datatypes.S (calls s); retry_count := retry_count s + 1;
       log := log s ++ [Requested; Metrics 429 (retry_count s)] ++ events |} in
  let run := attempt_once server parse_float float_sleep_error attempt s in
  (forall seconds,
      parse_float text = Some seconds ->
      float_sleep_error seconds = None ->
      run = (Ok None, after [Slept (Float seconds)]))
  /\ (parse_float text = None ->
      run = (Ok None, after [Slept (Int (2 ^ attempt))]))
  /\ (forall seconds e,
        parse_float text = Some seconds ->
        float_sleep_error seconds = Some e ->
        e = ValueError \/ e = OverflowError ->
        run = (Raise AsanaAPIError, after [Metrics 0 (retry_count s + 1)])).
Proof.
  intros Hattempt Hserver Hstatus Hafter Htext. cbv zeta.
  apply String.eqb_neq in Htext.
  assert (Hpow : 1 <= 2 ^ attempt <= 2).
  { assert (attempt = 0 \/ attempt = 1) as [-> | ->] by lia; cbn; lia. }
  repeat split.
  - intros seconds Hparse Hsleep. unfold_attempt.
    rewrite Hserver. cbn -[Z.pow Z.leb Z.ltb Z.sub Z.mul].
    rewrite Hstatus. cbn -[Z.pow Z.leb Z.ltb Z.sub Z.mul].
    replace (3 - 1 <=? attempt) with false by lia.
    rewrite Hafter, Htext, Hparse. cbn. rewrite Hsleep.
    cbn. rewrite <- ?app_assoc. reflexivity.
  - intros Hparse. unfold_attempt.
    rewrite Hserver. cbn -[Z.pow Z.leb Z.ltb Z.sub Z.mul].
    rewrite Hstatus. cbn -[Z.pow Z.leb Z.ltb Z.sub Z.mul].
    replace (3 - 1 <=? attempt) with false by lia.
    rewrite Hafter, Htext, Hparse. cbn -[Z.pow Z.leb Z.ltb Z.sub Z.mul].
    rewrite Z.mul_1_r.
    replace (2 ^ attempt <? -9223372036) with false by lia.
    replace (9223372036 <? 2 ^ attempt) with false by lia.
    replace (2 ^ attempt <? 0) with false by lia.
    cbn -[Z.pow]. rewrite <- ?app_assoc. reflexivity.
  - intros seconds e Hparse Hsleep He. unfold_attempt.
    rewrite Hserver. cbn -[Z.pow Z.leb Z.ltb Z.sub Z.mul].
    rewrite Hstatus. cbn -[Z.pow Z.leb Z.ltb Z.sub Z.mul].
    replace (3 - 1 <=? attempt) with false by lia.
    rewrite Hafter, Htext, Hparse. cbn. rewrite Hsleep.
    destruct He as [-> | ->]; cbn; rewrite <- ?app_assoc; reflexivity.
Qed.

End RequestLoop.

Lemma make_request_bounded_witness :
  exists s',
    AsanaClient._make_request AsanaClient.busy_server (fun _ => None) (fun _ => None)
      AsanaClient.initial
    = (Raise AsanaRateLimitError, s')
    /\ (0 < AsanaClient.calls s' <= 3)%nat.
Proof.
  eexists. split; [reflexivity |].
  exact (proj1 (make_request_bounded AsanaClient.busy_server (fun _ => None)
                  (fun _ => None) AsanaClient.initial _ _ eq_refl)).
Defined.

Lemma make_request_network_failure_witness :
  exists final,
    AsanaClient._make_request (Body := unit) (fun _ => AsanaClient.Fails Timeout)
      (fun _ => None) (fun _ => None) AsanaClient.initial
    = (Raise NetworkError, final)
    /\ AsanaClient.sleeps final = [Int 1; Int 1].
Proof.
  destruct (make_request_network_failure (Body := unit)
              (fun _ => AsanaClient.Fails Timeout) (fun _ => None) (fun _ => None)
              AsanaClient.initial (fun _ => or_introl eq_refl))
    as (final & Hrun & _ & _ & Hsleeps).
  exists final. split; [exact Hrun | exact Hsleeps].
Defined.

Lemma make_request_recovers_witness :
  exists final,
    AsanaClient._make_request
      (fun n => match n with
                | O => AsanaClient.Fails ConnectionError
                | _ => AsanaClient.Responds
                         {| AsanaClient.status_code := 200;
                            AsanaClient.retry_after := None;
                            AsanaClient.json := Some "data" |}
                end)
      (fun _ => None) (fun _ => None) AsanaClient.initial
    = (Ok "data", final)
    /\ AsanaClient.calls final = 2%nat
    /\ AsanaClient.sleeps final = [Int 1].
Proof.
  refine (make_request_recovers
            (fun n => match n with
                      | O => AsanaClient.Fails ConnectionError
                      | _ => AsanaClient.Responds
                               {| AsanaClient.status_code := 200;
                                  AsanaClient.retry_after := None;
                                  AsanaClient.json := Some "data" |}
                      end)
            (fun _ => None) (fun _ => None) AsanaClient.initial 1 _ "data"
            _ _ eq_refl _ eq_refl eq_refl).
  - lia.
  - intros [| k] Hk; [by right | lia].
  - discriminate.
Defined.

Lemma rate_limit_retry_after_witness :
  AsanaClient.attempt_once
    (fun _ => AsanaClient.Responds
                {| AsanaClient.status_code := 429;
                   AsanaClient.retry_after := Some "-1";
                   AsanaClient.json := @None unit |})
    (fun _ => Some (-1)%float) (fun _ => Some ValueError) 0 AsanaClient.initial
  = (Raise AsanaAPIError,
     {| AsanaClient.calls := 1; AsanaClient.retry_count := 1;
        AsanaClient.log := [AsanaClient.Requested; AsanaClient.Metrics 429 0;
                            AsanaClient.Metrics 0 1] |}).
Proof.
  refine (proj2 (proj2 (rate_limit_retry_after
            (fun _ => AsanaClient.Responds
                        {| AsanaClient.status_code := 429;
                           AsanaClient.retry_after := Some "-1";
                           AsanaClient.json := @None unit |})
            (fun _ => Some (-1)%float) (fun _ => Some ValueError)
            AsanaClient.initial 0 _ "-1" _ eq_refl eq_refl eq_refl _))
            (-1)%float ValueError eq_refl eq_refl (or_introl eq_refl)).
  - lia.
  - discriminate.
Defined.

(** ** Rows of tasks ([models.py], [task_manager.py]) *)

Section TaskToDict.
Import Models.

Variable isoformat : value -> string.

Lemma restrict_lookup_other (base : gmap string value) fields key :
  key ∉ fields -> restrict base fields !! key = None.
Proof.
  intros Hnot. unfold restrict. apply not_elem_of_list_to_map. intros Hk.
  apply list_elem_of_fmap in Hk as ([k w] & -> & Hkw).
  apply list_elem_of_omap in Hkw as (k' & Hin & Hk').
  destruct (base !! k') as [u |]; [| discriminate].
  cbn in Hk'. injection Hk' as <- <-. by apply Hnot.
Qed.

(** The mapping [base_data] builds: the custom fields over the eight
    intrinsic entries. *)
Lemma base_data_spec (t : Task) items base :
  custom_fields t = VDict items ->
  base_data isoformat t = Ok base ->
  exists created modified due,
    base = items ∪
      (<["notes" := notes t]> (<["due_date" := due]> (<["assignee" := assignee t]>
       (<["completed" := completed t]> (<["modified_at" := modified]>
       (<["created_at" := created]> (<["name" := name t]> {["id" := id t]}))))))).
Proof.
  intros Hcustom. unfold base_data.
  destruct (isoformat_if isoformat (created_at t)) as [created |]; [| discriminate].
  destruct (isoformat_if isoformat (modified_at t)) as [modified |]; [| discriminate].
  destruct (isoformat_if isoformat (due_date t)) as [due |]; [| discriminate].
  cbn [mbind result_bind]. rewrite Hcustom. intros [= <-]. eauto.
Qed.

(** X25.  The row [Task.to_dict] makes.  Its source is the mapping of
    the eight intrinsic entries with every custom field assigned over
    them (a custom field named as an intrinsic one replaces it).  Without
    a selection, [None] or an empty list, the row is that mapping; with
    one, the row has exactly the selected keys that the mapping has, with
    the same values: a selected field the task lacks is left out, not
    set to [None]. *)
Theorem to_dict_rows (t : Task) (items base : gmap string value) :
  custom_fields t = VDict items ->
  base_data isoformat t = Ok base ->
  let intrinsic := ["id"; "name"; "created_at"; "modified_at"; "completed";
                    "assignee"; "due_date"; "notes"] in
  (forall k v, items !! k = Some v -> base !! k = Some v)
  /\ (forall k, k ∈ intrinsic -> is_Some (base !! k))
  /\ (forall k, is_Some (base !! k) -> k ∈ intrinsic \/ is_Some (items !! k))
  /\ to_dict isoformat t None = Ok base
  /\ to_dict isoformat t (Some []) = Ok base
  /\ (forall fields,
        fields <> [] ->
        exists row,
          to_dict isoformat t (Some fields) = Ok row
          /\ forall k, row !! k = if contains k fields then base !! k else None).
Proof.
  intros Hcustom Hbase. cbv zeta.
  destruct (base_data_spec t items base Hcustom Hbase)
    as (created & modified & due & Hshape).
  repeat split.
  - intros k v Hk. rewrite Hshape. by apply lookup_union_Some_l.
  - intros k Hk. rewrite Hshape. apply lookup_union_is_Some. right.
    repeat (apply elem_of_cons in Hk as [-> | Hk]; [by simplify_map_eq |]).
    by apply elem_of_nil in Hk.
  - intros k Hk. rewrite Hshape in Hk.
    apply lookup_union_is_Some in Hk as [Hk | Hk]; [by right | left].
    repeat (apply lookup_insert_is_Some in Hk as [<- | [_ Hk]]; [set_solver |]).
    destruct Hk as [v Hk]. apply lookup_singleton_Some in Hk as [<- _]. set_solver.
  - unfold to_dict. by rewrite Hbase.
  - unfold to_dict. by rewrite Hbase.
  - intros fields Hfields. exists (restrict base fields). split.
    + unfold to_dict. rewrite Hbase. by destruct fields.
    + intros k. destruct (contains k fields) eqn:Hk.
      * apply restrict_lookup. by apply contains_true.
      * apply restrict_lookup_other. by apply contains_false.
Qed.

End TaskToDict.

Lemma to_dict_rows_witness :
  exists row,
    Models.to_dict (fun _ => "2024-01-01")
      {| Models.id := Models.VStr "42";
         Models.name := Models.VStr "write report";
         Models.created_at := Models.VDateTime 738886 0 (Some 0);
         Models.modified_at := Models.VDateTime 738887 0 (Some 0);
         Models.completed := Models.VBool false;
         Models.assignee := Models.VNone;
         Models.due_date := Models.VNone;
         Models.notes := Models.VStr "";
         Models.custom_fields :=
           Models.VDict {[ "custom_7" := Models.VStr "high" ]} |}
      (Some ["name"; "tags"; "custom_7"])
    = Ok row
    /\ row !! "custom_7" = Some (Models.VStr "high")
    /\ row !! "tags" = None
    /\ row !! "id" = None.
Proof.
  set (task := Models.Build_Task _ _ _ _ _ _ _ _ _).
  eassert (Hbase : Models.base_data (fun _ => "2024-01-01") task = Ok _)
    by reflexivity.
  destruct (to_dict_rows (fun _ => "2024-01-01") task
              {[ "custom_7" := Models.VStr "high" ]} _ eq_refl Hbase)
    as (_ & _ & _ & _ & _ & Hrow).
  destruct (Hrow ["name"; "tags"; "custom_7"] ltac:(discriminate))
    as (row & Hrun & Hkeys).
  exists row. split; [exact Hrun |].
  rewrite !Hkeys.
  repeat split; vm_compute; reflexivity.
Defined.

Section FilterEdges.
Import Models TaskManager.

Variable isoformat : value -> string.
Variable list_of_set : list string -> list string.
Hypothesis list_of_set_perm : forall l, list_of_set l ≡ₚ remove_dups l.

(** The fields after [force_required]: the selected ones and the
    required ones. *)
Lemma force_required_elem selected x :
  x ∈ force_required list_of_set selected
  <-> x ∈ selected \/ x ∈ get_required_field_names.
Proof.
  unfold force_required.
  set (missing := List.filter _ get_required_field_names).
  assert (Hm : forall y, y ∈ missing
                         <-> y ∈ get_required_field_names
                             /\ contains y selected = false).
  { intros y. subst missing.
    by rewrite list_elem_of_In, filter_In, <- list_elem_of_In, negb_true_iff. }
  destruct missing as [| first rest].
  - split; [by left |]. intros [H | H]; [done |].
    destruct (contains x selected) eqn:Hc; [by apply contains_true |].
    exfalso. assert (Hx : x ∈ @nil string) by (by apply Hm).
    by apply elem_of_nil in Hx.
  - rewrite (list_of_set_elem list_of_set list_of_set_perm), elem_of_app, Hm.
    split; [intros [H | [H _]]; auto |].
    intros [H | H]; [by left |].
    destruct (contains x selected) eqn:Hc; [left; by apply contains_true | by right].
Qed.

Lemma base_data_custom (t : Task) base :
  base_data isoformat t = Ok base -> exists items, custom_fields t = VDict items.
Proof.
  unfold base_data.
  destruct (isoformat_if isoformat (created_at t)); [| discriminate].
  destruct (isoformat_if isoformat (modified_at t)); [| discriminate].
  destruct (isoformat_if isoformat (due_date t)); [| discriminate].
  cbn [mbind result_bind]. destruct (custom_fields t); try discriminate. eauto.
Qed.

(** X26.  The edges of [filter_tasks_by_fields].  Without tasks the
    result is the empty list, whatever the selection.  With tasks, an
    empty selection, and a selection in which no field is available, are
    refused with a [ValidationError] for "selected_fields".  And every
    row that is returned has the three fields the data layer requires,
    "id", "name" and "created_at", selected or not, and no key besides
    these and the selected ones. *)
Theorem filter_tasks_by_fields_edges :
  (forall selected definitions,
      filter_tasks_by_fields isoformat list_of_set [] selected definitions = Ok [])
  /\ (forall tasks definitions,
        tasks <> [] ->
        filter_tasks_by_fields isoformat list_of_set tasks [] definitions
        = Raise (ValidationError "selected_fields"))
  /\ (forall tasks selected definitions available,
        tasks <> [] ->
        available_fields_of definitions = Ok available ->
        (forall field, field ∈ selected -> among field available = false) ->
        filter_tasks_by_fields isoformat list_of_set tasks selected definitions
        = Raise (ValidationError "selected_fields"))
  /\ (forall tasks selected definitions rows,
        filter_tasks_by_fields isoformat list_of_set tasks selected definitions
        = Ok rows ->
        Forall
          (fun row : gmap string value =>
             (forall k, k ∈ ["id"; "name"; "created_at"] -> is_Some (row !! k))
             /\ (forall k, is_Some (row !! k) ->
                           k ∈ selected \/ k ∈ ["id"; "name"; "created_at"]))
          rows).
Proof.
  repeat split.
  - intros tasks definitions Htasks.
    destruct tasks; [done | reflexivity].
  - intros tasks selected definitions available Htasks Havailable Hnone.
    destruct tasks as [| t tasks]; [done |].
    destruct selected as [| field selected]; [reflexivity |].
    unfold filter_tasks_by_fields. rewrite Havailable. cbn [mbind result_bind].
    unfold drop_invalid.
    assert (Hall : forall l,
               (forall f, f ∈ l -> among f available = false) ->
               List.filter (fun f => negb (among f available)) l = l
               /\ List.filter (fun f => among f available) l = []).
    { induction l as [| f l IH]; [done |]. intros Hl. cbn [List.filter].
      rewrite (Hl f) by (apply elem_of_cons; by left). cbn [negb].
      destruct IH as [-> ->]; [| done].
      intros f' Hf'. apply Hl, elem_of_cons. by right. }
    destruct (Hall _ Hnone) as [-> ->]. reflexivity.
  - intros tasks selected definitions rows.
    unfold filter_tasks_by_fields.
    destruct tasks as [| t tasks]; [intros [= <-]; constructor |].
    destruct selected as [| field selected]; [discriminate |].
    destruct (available_fields_of definitions) as [available |]; [| discriminate].
    cbn [mbind result_bind].
    destruct (drop_invalid (field :: selected) available) as [kept |] eqn:Hkept;
      [| discriminate].
    cbn [mbind result_bind].
    set (fields := force_required list_of_set kept).
    pose proof (convert_all_rows isoformat (t :: tasks) fields) as Hrows.
    destruct (convert_all isoformat (t :: tasks) fields) as [filtered failed].
    cbn [fst] in Hrows.
    destruct filtered as [| row filtered]; [discriminate |].
    intros [= <-].
    eapply Forall_impl; [exact Hrows |].
    intros r (t0 & _ & Hr). cbv beta.
    assert (Hrequired : forall k, k ∈ ["id"; "name"; "created_at"] -> k ∈ fields).
    { intros k Hk. apply force_required_elem. by right. }
    unfold to_dict in Hr.
    destruct (base_data isoformat t0) as [base |] eqn:Hbase; [| discriminate].
    cbn [mbind result_bind] in Hr.
    destruct (base_data_custom _ _ Hbase) as [items Hitems].
    destruct (base_data_spec isoformat t0 items base Hitems Hbase)
      as (created & modified & due & Hshape).
    destruct fields as [| f fields'] eqn:Hfields.
    { exfalso. eapply elem_of_nil, (Hrequired "id"). set_solver. }
    injection Hr as <-. rewrite <- Hfields in *. split.
    + intros k Hk. rewrite (restrict_lookup _ _ _ (Hrequired k Hk)), Hshape.
      apply lookup_union_is_Some. right.
      repeat (apply elem_of_cons in Hk as [-> | Hk]; [by simplify_map_eq |]).
      by apply elem_of_nil in Hk.
    + intros k Hk.
      destruct (decide (k ∈ fields)) as [Hin | Hnot].
      * subst fields. apply force_required_elem in Hin as [Hin | Hin]; [| by right].
        left. exact (drop_invalid_subset _ _ _ _ Hkept Hin).
      * rewrite (restrict_lookup_other _ _ _ Hnot) in Hk. by destruct Hk.
Qed.

End FilterEdges.

Lemma filter_tasks_by_fields_edges_witness :
  TaskManager.filter_tasks_by_fields (fun _ => "2024-01-01") remove_dups
    [ {| Models.id := Models.VStr "42";
         Models.name := Models.VStr "write report";
         Models.created_at := Models.VDateTime 738886 0 (Some 0);
         Models.modified_at := Models.VDateTime 738887 0 (Some 0);
         Models.completed := Models.VBool false;
         Models.assignee := Models.VNone;
         Models.due_date := Models.VNone;
         Models.notes := Models.VStr "";
         Models.custom_fields := Models.VDict ∅ |} ]
    ["tags"; "projects"] None
  = Raise (ValidationError "selected_fields").
Proof.
  refine (proj1 (proj2 (proj2 (filter_tasks_by_fields_edges (fun _ => "2024-01-01")
                                 remove_dups (fun l => reflexivity _))))
            _ ["tags"; "projects"] None _ _ eq_refl _).
  - discriminate.
  - intros field Hfield.
    repeat (apply elem_of_cons in Hfield as [-> | Hfield]; [reflexivity |]).
    by apply elem_of_nil in Hfield.
Defined.
